(** * The ROS interface of ORB-SLAM2: [src/library/interface.cpp]

    A shallow embedding of [orb_slam_2_interface::OrbSlam2Interface]: the
    pose converter [convertOrbSlamPoseToKindr], the trajectory poller
    [runPublishUpdatedTrajectory], the publishers and the TF broadcaster.

    - Scalars are IEEE 754 values ([spec_float]): [float] is binary32 and
      [double] is binary64; [static_cast<double>] is rounding to binary64.
    - A failed glog [CHECK] aborts the process: the functions that contain
      one return a [result].
    - Publishing, broadcasting, engine calls and sleeping are recorded as a
      trace of [Effect]s.
    - The background thread is a program counter over the loop of
      [runPublishUpdatedTrajectory]; other threads interleave with it one
      atomic action at a time.
    - Eigen, minkindr, tf and roscpp are not part of the repository: what the
      file calls from them is gathered in the interface [Libraries]. *)

From Stdlib Require Import ZArith QArith Qpower Lia.
From Stdlib Require Import Floats.SpecFloat.
From stdpp Require Import base list strings gmap.

Local Open Scope string_scope.
Local Open Scope list_scope.
Local Open Scope Z_scope.

(** ** IEEE 754 scalars *)

Module IEEE754.

(** [float]: binary32, 24 bits of precision, exponent of infinity 128. *)
Abbreviation float := spec_float (only parsing).
(** [double]: binary64, 53 bits of precision, exponent of infinity 1024. *)
Abbreviation double := spec_float (only parsing).

Definition is_float (x : spec_float) : bool := valid_binary 24 128 x.
Definition is_double (x : spec_float) : bool := valid_binary 53 1024 x.

(** [static_cast<double>(x)] for a [float] x: round to nearest even in
    binary64; zeros, infinities and NaN are kept. *)
Definition float_to_double (x : float) : double :=
  match x with
  | S754_finite s m e => binary_round 53 1024 s m e
  | _ => x
  end.

(** Integer literals of both formats. *)
Definition float_of_Z (n : Z) : float := binary_normalize 24 128 n 0 false.
Definition double_of_Z (n : Z) : double := binary_normalize 53 1024 n 0 false.

(** The rational number a finite value stands for. *)
Definition SF2Q (x : spec_float) : Q :=
  match x with
  | S754_finite s m e => (inject_Z (cond_Zopp s (Zpos m)) * 2 ^ e)%Q
  | _ => 0%Q
  end.

(** Two values, maybe of different formats, are the same datum: same
    class, same sign, same number. *)
Definition SFsame (x y : spec_float) : Prop :=
  match x, y with
  | S754_zero s, S754_zero s' => s = s'
  | S754_infinity s, S754_infinity s' => s = s'
  | S754_nan, S754_nan => True
  | S754_finite _ _ _, S754_finite _ _ _ => (SF2Q x == SF2Q y)%Q
  | _, _ => False
  end.

End IEEE754.
Import IEEE754.

(** ** Eigen: fixed-size matrices, coefficient (i,j) is field [cij] *)

Module Eigen.

Record Vector3 (A : Type) : Type := mkVector3 { x : A; y : A; z : A }.
Arguments mkVector3 {A} _ _ _.
Arguments x {A} _.
Arguments y {A} _.
Arguments z {A} _.

Record Matrix3 (A : Type) : Type := mkMatrix3 {
  m00 : A; m01 : A; m02 : A;
  m10 : A; m11 : A; m12 : A;
  m20 : A; m21 : A; m22 : A }.
Arguments mkMatrix3 {A} _ _ _ _ _ _ _ _ _.

Record Matrix4 (A : Type) : Type := mkMatrix4 {
  c00 : A; c01 : A; c02 : A; c03 : A;
  c10 : A; c11 : A; c12 : A; c13 : A;
  c20 : A; c21 : A; c22 : A; c23 : A;
  c30 : A; c31 : A; c32 : A; c33 : A }.
Arguments mkMatrix4 {A} _ _ _ _ _ _ _ _ _ _ _ _ _ _ _ _.
Arguments c00 {A} _.
Arguments c01 {A} _.
Arguments c02 {A} _.
Arguments c03 {A} _.
Arguments c10 {A} _.
Arguments c11 {A} _.
Arguments c12 {A} _.
Arguments c13 {A} _.
Arguments c20 {A} _.
Arguments c21 {A} _.
Arguments c22 {A} _.
Arguments c23 {A} _.
Arguments c30 {A} _.
Arguments c31 {A} _.
Arguments c32 {A} _.
Arguments c33 {A} _.

(** [M.cast<B>()]: coefficient-wise conversion. *)
Definition cast {A B : Type} (f : A -> B) (M : Matrix4 A) : Matrix4 B :=
  mkMatrix4
    (f (c00 M)) (f (c01 M)) (f (c02 M)) (f (c03 M))
    (f (c10 M)) (f (c11 M)) (f (c12 M)) (f (c13 M))
    (f (c20 M)) (f (c21 M)) (f (c22 M)) (f (c23 M))
    (f (c30 M)) (f (c31 M)) (f (c32 M)) (f (c33 M)).

(** [M.block<3, 3>(0, 0)]. *)
Definition block33_00 {A : Type} (M : Matrix4 A) : Matrix3 A :=
  mkMatrix3
    (c00 M) (c01 M) (c02 M)
    (c10 M) (c11 M) (c12 M)
    (c20 M) (c21 M) (c22 M).

(** [M.block<3, 1>(0, 3)]. *)
Definition block31_03 {A : Type} (M : Matrix4 A) : Vector3 A :=
  mkVector3 (c03 M) (c13 M) (c23 M).

(** [Eigen::AngleAxisd]. *)
Record AngleAxisd : Type := mkAngleAxisd {
  angle : double;
  axis : Vector3 double }.

End Eigen.

(** ** OpenCV: a single-channel [CV_32F] matrix, as ORB-SLAM2 stores poses *)

Module cv.

(** [rows] and [cols] are C++ [int]s; [data] is the row-major buffer. *)
Record Mat : Type := mkMat {
  rows : Z;
  cols : Z;
  data : list float }.

(** [m.at<float>(i, j)]. *)
Definition at_ (m : Mat) (i j : Z) : float :=
  nth (Z.to_nat (i * cols m + j)) (data m) (S754_zero false).

(** Every stored element is a binary32 value. *)
Definition is_CV_32F (m : Mat) : Prop :=
  Forall (fun v => is_float v = true) (data m).

(** [cv::cv2eigen(src, dst)] into an [Eigen::Matrix4f]: source and
    destination have the same element type, so [dst(i,j) = src(i,j)]. *)
Definition cv2eigen (src : Mat) : Eigen.Matrix4 float :=
  Eigen.mkMatrix4
    (at_ src 0 0) (at_ src 0 1) (at_ src 0 2) (at_ src 0 3)
    (at_ src 1 0) (at_ src 1 1) (at_ src 1 2) (at_ src 1 3)
    (at_ src 2 0) (at_ src 2 1) (at_ src 2 2) (at_ src 2 3)
    (at_ src 3 0) (at_ src 3 1) (at_ src 3 2) (at_ src 3 3).

End cv.

(** ** glog: a failed check is fatal *)

Module glog.

Inductive Fatal : Type :=
  | CheckNotNull_failed (what : string)
  | CheckEq_failed (what : string) (actual expected : Z)
  | Check_failed (message : string).

Inductive result (A : Type) : Type :=
  | Ok (a : A)
  | Abort (e : Fatal).
Arguments Ok {A} a.
Arguments Abort {A} e.

Definition bind {A B : Type} (m : result A) (k : A -> result B) : result B :=
  match m with
  | Ok a => k a
  | Abort e => Abort e
  end.

Definition CHECK_NOTNULL {A : Type} (what : string) (p : option A) : result A :=
  match p with
  | Some a => Ok a
  | None => Abort (CheckNotNull_failed what)
  end.

Definition CHECK_EQ (what : string) (actual expected : Z) : result unit :=
  if actual =? expected then Ok tt
  else Abort (CheckEq_failed what actual expected).

Definition CHECK (cond : bool) (message : string) : result unit :=
  if cond then Ok tt else Abort (Check_failed message).

End glog.
Import glog.

#[global] Instance result_bind : MBind result := fun A B k m => glog.bind m k.
#[global] Instance result_ret : MRet result := fun A a => Ok a.

(** The spec's error class [InvalidInputShape]: one of the two dimension
    checks of the pose converter failed. *)
Definition InvalidInputShape (e : Fatal) : Prop :=
  match e with
  | CheckEq_failed what actual 4 =>
      (what = "T_cv.cols" \/ what = "T_cv.rows") /\ actual <> 4
  | _ => False
  end.

(** ** minkindr: rigid transformations *)

Module kindr.

(** [kindr::minimal::RotationQuaternion], coefficients in the order
    w, x, y, z. *)
Record Quaternion : Type := mkQuaternion {
  w : double; x : double; y : double; z : double }.

(** Modelled from the spec: the type [Transformation] is declared in
    interface.hpp, which is not under src/. The spec's data model has it
    as a pair of a rotation quaternion and a translation 3-vector;
    [Transformation(q, t)] stores both. *)
Record Transformation : Type := mkTransformation {
  getRotation : Quaternion;
  getPosition : Eigen.Vector3 double }.

(** Modelled from the spec: the default-constructed [Transformation], the
    value of a member that no initializer mentions. The spec calls it the
    identity/default transform: rotation (1, 0, 0, 0), translation 0. *)
Definition identity : Transformation :=
  mkTransformation
    (mkQuaternion (double_of_Z 1) (double_of_Z 0) (double_of_Z 0) (double_of_Z 0))
    (Eigen.mkVector3 (double_of_Z 0) (double_of_Z 0) (double_of_Z 0)).

End kindr.

(** ** roscpp, ROS messages and tf *)

Module ros.

(** [ros::Time] and [ros::Duration]: seconds and nanoseconds. *)
Record Time : Type := mkTime { sec : Z; nsec : Z }.
Record Duration : Type := mkDuration { d_sec : Z; d_nsec : Z }.

(** Values of the parameter server. *)
Inductive XmlRpcValue : Type :=
  | TypeBoolean (b : bool)
  | TypeInt (i : Z)
  | TypeDouble (d : double)
  | TypeString (s : string).

(** A node handle's view of the parameter server. *)
Abbreviation NodeHandle := (gmap string XmlRpcValue) (only parsing).

(** [nh.getParam(key, var)] with a [std::string] variable: the flag
    returned, and the content of the variable afterwards. *)
Definition getParam_string (nh : NodeHandle) (key : string) (var : string)
  : bool * string :=
  match nh !! key with
  | Some (TypeString s) => (true, s)
  | _ => (false, var)
  end.

(** [nh.getParam(key, var)] with a [bool] variable. *)
Definition getParam_bool (nh : NodeHandle) (key : string) (var : bool)
  : bool * bool :=
  match nh !! key with
  | Some (TypeBoolean b) => (true, b)
  | _ => (false, var)
  end.

(** [ros::TimerEvent]. *)
Record TimerEvent : Type := mkTimerEvent {
  last_expected : Time; last_real : Time;
  current_expected : Time; current_real : Time }.

End ros.

Module std_msgs.

Record Header : Type := mkHeader {
  seq : Z;
  stamp : ros.Time;
  frame_id : string }.

(** The header of a freshly constructed message. *)
Definition Header_new : Header := mkHeader 0 (ros.mkTime 0 0) EmptyString.

Record UInt64 : Type := mkUInt64 { data : Z }.

End std_msgs.

Module geometry_msgs.

Record Transform : Type := mkTransform {
  translation : Eigen.Vector3 double;
  rotation : kindr.Quaternion }.

Record TransformStamped : Type := mkTransformStamped {
  header : std_msgs.Header;
  child_frame_id : string;
  transform : Transform }.

End geometry_msgs.

Module tf.

Record Transform : Type := mkTransform {
  basis : Eigen.Matrix3 double;
  origin : Eigen.Vector3 double }.

(** [tf::StampedTransform(input, timestamp, frame_id, child_frame_id)]. *)
Record StampedTransform : Type := mkStampedTransform {
  st_data : Transform;
  stamp_ : ros.Time;
  frame_id_ : string;
  child_frame_id_ : string }.

End tf.

(** ** The messages of this package *)

Module orb_slam_2_ros.

Record TransformsWithIds : Type := mkTransformsWithIds {
  transforms : list geometry_msgs.TransformStamped;
  keyframe_ids : list std_msgs.UInt64 }.

Definition TransformsWithIds_new : TransformsWithIds :=
  mkTransformsWithIds [] [].

Record KeyframeStatus : Type := mkKeyframeStatus {
  header : std_msgs.Header;
  status : bool;
  keyframe_id : std_msgs.UInt64 }.

End orb_slam_2_ros.

(** ** The engine's trajectory entries *)

Module ORB_SLAM2.

(** [id] is a [long unsigned int], as wide as the [uint64] of the message
    it is copied to. *)
Record PoseWithID : Type := mkPoseWithID {
  pose : cv.Mat;
  timestamp : double;
  id : Z }.

End ORB_SLAM2.

(** ** What the file calls from libraries outside the repository *)

Class Libraries : Type := {
  (** [Eigen::AngleAxisd aa(R)] *)
  AngleAxisd_of_Matrix3d : Eigen.Matrix3 double -> Eigen.AngleAxisd;
  (** [aa.toRotationMatrix()] *)
  toRotationMatrix : Eigen.AngleAxisd -> Eigen.Matrix3 double;
  (** [Quaternion q(R)] *)
  Quaternion_of_Matrix3d : Eigen.Matrix3 double -> kindr.Quaternion;
  (** [T.inverse()] *)
  inverse : kindr.Transformation -> kindr.Transformation;
  (** [tf::transformKindrToMsg(T, &msg)]: the message written *)
  transformKindrToMsg : kindr.Transformation -> geometry_msgs.Transform;
  (** [tf::transformKindrToTF(T, &tf_transform)]: the transform written *)
  transformKindrToTF : kindr.Transformation -> tf.Transform;
  (** [ros::Time(t)] for a [double] t *)
  Time_of_double : double -> ros.Time;
  (** The defaults of interface.hpp *)
  kDefaultUseViewer : bool;
  kDefaultVerbose : bool;
  kDefaultFrameId : string;
  kDefaultChildFrameId : string }.

(** ** The class [OrbSlam2Interface] *)

(** What the class does to the outside, in the order it does it. *)
Inductive Effect : Type :=
  | advertise (topic : string) (queue_size : Z)
  | createTimer (period : ros.Duration)
  | T_pub_publish (msg : geometry_msgs.TransformStamped)
  | trajectory_pub_publish (msg : orb_slam_2_ros.TransformsWithIds)
  | keyframe_status_pub_publish (msg : orb_slam_2_ros.KeyframeStatus)
  | tf_broadcaster_sendTransform (t : tf.StampedTransform)
  | isUpdatedTrajectoryAvailable (answer : bool)
  | GetUpdatedTrajectory (snapshot : list ORB_SLAM2.PoseWithID)
  | cout (line : string)
  | usleep (usec : Z).

(** The data members that the file reads or writes. *)
Record OrbSlam2Interface : Type := mkOrbSlam2Interface {
  use_viewer_ : bool;
  verbose_ : bool;
  frame_id_ : string;
  child_frame_id_ : string;
  vocabulary_file_path_ : string;
  settings_file_path_ : string;
  mb_shutdown_flag : bool;
  T_W_C_ : kindr.Transformation }.

(** The position of the background thread in [runPublishUpdatedTrajectory]. *)
Inductive PollerPc : Type :=
  | at_while      (** line 48: about to test [!mb_shutdown_flag] *)
  | at_available  (** line 50: about to ask the engine for an update *)
  | at_fetch      (** lines 52-76: about to fetch, convert and publish *)
  | at_usleep     (** line 78: about to sleep *)
  | returned.     (** line 80: the loop is left *)

(** What the engine would answer if it were called now. *)
Record Engine : Type := mkEngine {
  updated_trajectory_available : bool;
  updated_trajectory : list ORB_SLAM2.PoseWithID }.

(** The process: the object, the background thread, and the failed check
    that killed it, if any. *)
Record Process : Type := mkProcess {
  self : OrbSlam2Interface;
  poller : PollerPc;
  aborted : option Fatal }.

(** One atomic action of some thread of the process. *)
Inductive Action : Type :=
  | poller_step (engine : Engine)
  | call_shutdown
  | call_publishCurrentPose (T : kindr.Transformation) (header : std_msgs.Header)
  | call_publishCurrentKeyframeStatus
      (keyframe_status : bool) (last_keyframe_id : Z) (frame_header : std_msgs.Header)
  | timer_fires (event : ros.TimerEvent) (now : ros.Time).

Section Interface.

Context `{Libraries}.

(** Lines 36-42. *)
Definition shutdown (this : OrbSlam2Interface) : OrbSlam2Interface :=
  {| use_viewer_ := use_viewer_ this;
     verbose_ := verbose_ this;
     frame_id_ := frame_id_ this;
     child_frame_id_ := child_frame_id_ this;
     vocabulary_file_path_ := vocabulary_file_path_ this;
     settings_file_path_ := settings_file_path_ this;
     mb_shutdown_flag := true;
     T_W_C_ := T_W_C_ this |}.

(** Lines 152-171. [T_kindr] is the pointer argument: [None] is the null
    pointer, [Some T] points to an object holding T; the result is what
    the object holds afterwards. *)
Definition convertOrbSlamPoseToKindr
    (T_cv : cv.Mat) (T_kindr : option kindr.Transformation)
  : result kindr.Transformation :=
  CHECK_NOTNULL "T_kindr" T_kindr;;
  CHECK_EQ "T_cv.cols" (cv.cols T_cv) 4;;
  CHECK_EQ "T_cv.rows" (cv.rows T_cv) 4;;
  let T_eigen_f := cv.cv2eigen T_cv in
  let T_eigen_d := Eigen.cast float_to_double T_eigen_f in
  let R_unnormalized := Eigen.block33_00 T_eigen_d in
  let aa := AngleAxisd_of_Matrix3d R_unnormalized in
  let R := toRotationMatrix aa in
  let q_kindr := Quaternion_of_Matrix3d R in
  let t_kindr := Eigen.block31_03 T_eigen_d in
  Ok (kindr.mkTransformation q_kindr t_kindr).

(** Lines 59-73: the body of the range-for loop, on the message built so
    far. *)
Definition push_back_pose
    (transforms_with_ids : orb_slam_2_ros.TransformsWithIds)
    (pose_with_id : ORB_SLAM2.PoseWithID)
  : result orb_slam_2_ros.TransformsWithIds :=
  T_C_W ← convertOrbSlamPoseToKindr
            (ORB_SLAM2.pose pose_with_id) (Some kindr.identity);
  let T_W_C := inverse T_C_W in
  let T_W_C_msg :=
    geometry_msgs.mkTransformStamped
      (std_msgs.mkHeader
         (std_msgs.seq std_msgs.Header_new)
         (Time_of_double (ORB_SLAM2.timestamp pose_with_id))
         (std_msgs.frame_id std_msgs.Header_new))
      EmptyString
      (transformKindrToMsg T_W_C) in
  let id := std_msgs.mkUInt64 (ORB_SLAM2.id pose_with_id) in
  Ok (orb_slam_2_ros.mkTransformsWithIds
        (orb_slam_2_ros.transforms transforms_with_ids ++ [T_W_C_msg])
        (orb_slam_2_ros.keyframe_ids transforms_with_ids ++ [id])).

(** Lines 58-74: the range-for loop. *)
Fixpoint for_each_pose
    (T_C_W_trajectory_unnormalized : list ORB_SLAM2.PoseWithID)
    (transforms_with_ids : orb_slam_2_ros.TransformsWithIds)
  : result orb_slam_2_ros.TransformsWithIds :=
  match T_C_W_trajectory_unnormalized with
  | [] => Ok transforms_with_ids
  | pose_with_id :: rest =>
      transforms_with_ids' ← push_back_pose transforms_with_ids pose_with_id;
      for_each_pose rest transforms_with_ids'
  end.

(** Lines 56-74: the message populated from a snapshot. *)
Definition populate (snapshot : list ORB_SLAM2.PoseWithID)
  : result orb_slam_2_ros.TransformsWithIds :=
  for_each_pose snapshot orb_slam_2_ros.TransformsWithIds_new.

(** Lines 44-80, one step of the thread that runs the loop. The flag is
    read at [at_while] only. The result is the next position, the effects
    of the step and the failed check, if the step hit one. *)
Definition runPublishUpdatedTrajectory_step
    (this : OrbSlam2Interface) (slam_system_ : Engine) (pc : PollerPc)
  : PollerPc * list Effect * option Fatal :=
  match pc with
  | at_while =>
      if negb (mb_shutdown_flag this) then (at_available, [], None)
      else (returned, [], None)
  | at_available =>
      let answer := updated_trajectory_available slam_system_ in
      (if answer then at_fetch else at_usleep,
       [isUpdatedTrajectoryAvailable answer], None)
  | at_fetch =>
      let T_C_W_trajectory_unnormalized := updated_trajectory slam_system_ in
      let called :=
        [cout "Updated trajectory available. Publishing.";
         GetUpdatedTrajectory T_C_W_trajectory_unnormalized] in
      match populate T_C_W_trajectory_unnormalized with
      | Ok transforms_with_ids =>
          (at_usleep, called ++ [trajectory_pub_publish transforms_with_ids], None)
      | Abort e => (at_fetch, called, Some e)
      end
  | at_usleep => (at_while, [usleep 5000], None)
  | returned => (returned, [], None)
  end.

(** Lines 82-94. *)
Definition advertiseTopics (this : OrbSlam2Interface)
  : OrbSlam2Interface * list Effect :=
  (this,
   [advertise "transform_cam" 1;
    advertise "trajectory_cam" 1;
    advertise "keyframe_status" 1;
    createTimer (ros.mkDuration 0 100000000)]).

(** Lines 96-107. *)
Definition getParametersFromRos
    (nh_private_ : ros.NodeHandle) (this : OrbSlam2Interface)
  : result OrbSlam2Interface :=
  let vocabulary :=
    ros.getParam_string nh_private_ "vocabulary_file_path"
      (vocabulary_file_path_ this) in
  CHECK vocabulary.1 "Please provide the vocabulary_file_path as a ros param.";;
  let settings :=
    ros.getParam_string nh_private_ "settings_file_path"
      (settings_file_path_ this) in
  CHECK settings.1 "Please provide the settings_file_path as a ros param.";;
  Ok {| use_viewer_ :=
          (ros.getParam_bool nh_private_ "use_viewer" (use_viewer_ this)).2;
        verbose_ :=
          (ros.getParam_bool nh_private_ "verbose" (verbose_ this)).2;
        frame_id_ :=
          (ros.getParam_string nh_private_ "frame_id" (frame_id_ this)).2;
        child_frame_id_ :=
          (ros.getParam_string nh_private_ "child_frame_id"
             (child_frame_id_ this)).2;
        vocabulary_file_path_ := vocabulary.2;
        settings_file_path_ := settings.2;
        mb_shutdown_flag := mb_shutdown_flag this;
        T_W_C_ := T_W_C_ this |}.

(** Lines 20-32: the constructor. Members without an initializer are
    default-constructed. *)
Definition OrbSlam2Interface_new (nh_private : ros.NodeHandle)
  : result (OrbSlam2Interface * list Effect) :=
  let this :=
    {| use_viewer_ := kDefaultUseViewer;
       verbose_ := kDefaultVerbose;
       frame_id_ := kDefaultFrameId;
       child_frame_id_ := kDefaultChildFrameId;
       vocabulary_file_path_ := EmptyString;
       settings_file_path_ := EmptyString;
       mb_shutdown_flag := false;
       T_W_C_ := kindr.identity |} in
  let advertised := advertiseTopics this in
  this' ← getParametersFromRos nh_private advertised.1;
  Ok (this', advertised.2).

(** Lines 109-122. *)
Definition publishCurrentPose
    (T : kindr.Transformation) (header : std_msgs.Header)
    (this : OrbSlam2Interface)
  : OrbSlam2Interface * list Effect :=
  let msg :=
    geometry_msgs.mkTransformStamped
      header
      (child_frame_id_ this)
      (transformKindrToMsg T) in
  (this, [T_pub_publish msg]).

(** Lines 124-129; [now] is what [ros::Time::now()] returns. *)
Definition publishCurrentPoseAsTF
    (event : ros.TimerEvent) (now : ros.Time) (this : OrbSlam2Interface)
  : OrbSlam2Interface * list Effect :=
  let tf_transform := transformKindrToTF (T_W_C_ this) in
  (this,
   [tf_broadcaster_sendTransform
      (tf.mkStampedTransform tf_transform now
         (frame_id_ this) (child_frame_id_ this))]).

(** Lines 173-183. *)
Definition publishCurrentKeyframeStatus
    (keyframe_status : bool) (last_keyframe_id : Z)
    (frame_header : std_msgs.Header) (this : OrbSlam2Interface)
  : OrbSlam2Interface * list Effect :=
  let keyframe_status_msg :=
    orb_slam_2_ros.mkKeyframeStatus
      (std_msgs.mkHeader
         (std_msgs.seq std_msgs.Header_new)
         (std_msgs.stamp frame_header)
         (std_msgs.frame_id std_msgs.Header_new))
      keyframe_status
      (std_msgs.mkUInt64 last_keyframe_id) in
  (this, [keyframe_status_pub_publish keyframe_status_msg]).

(** ** The process: threads interleaved one action at a time *)

(** A process that a failed check has killed does nothing more. *)
Definition step (a : Action) (p : Process) : Process * list Effect :=
  match aborted p with
  | Some _ => (p, [])
  | None =>
      match a with
      | poller_step engine =>
          let '(pc, effects, failure) :=
            runPublishUpdatedTrajectory_step (self p) engine (poller p) in
          (mkProcess (self p) pc failure, effects)
      | call_shutdown =>
          (mkProcess (shutdown (self p)) (poller p) None, [])
      | call_publishCurrentPose T header =>
          let r := publishCurrentPose T header (self p) in
          (mkProcess r.1 (poller p) None, r.2)
      | call_publishCurrentKeyframeStatus status last header =>
          let r := publishCurrentKeyframeStatus status last header (self p) in
          (mkProcess r.1 (poller p) None, r.2)
      | timer_fires event now =>
          let r := publishCurrentPoseAsTF event now (self p) in
          (mkProcess r.1 (poller p) None, r.2)
      end
  end.

(** A schedule, run from the left; the trace is in the order of time. *)
Fixpoint run (schedule : list Action) (p : Process) : Process * list Effect :=
  match schedule with
  | [] => (p, [])
  | a :: rest =>
      let r := step a p in
      let r' := run rest r.1 in
      (r'.1, r.2 ++ r'.2)
  end.

(** The process right after the constructor, before the thread starts
    the loop. *)
Definition started (this : OrbSlam2Interface) : Process :=
  mkProcess this at_while None.

End Interface.

(** Counting in a trace. *)
Definition is_availability_call (e : Effect) : bool :=
  match e with isUpdatedTrajectoryAvailable _ => true | _ => false end.

Definition is_fetch_call (e : Effect) : bool :=
  match e with GetUpdatedTrajectory _ => true | _ => false end.

Definition is_sleep (e : Effect) : bool :=
  match e with usleep _ => true | _ => false end.

Definition count (f : Effect -> bool) (trace : list Effect) : nat :=
  length (List.filter f trace).

Definition is_poller_step (a : Action) : bool :=
  match a with poller_step _ => true | _ => false end.

Definition poller_steps (schedule : list Action) : nat :=
  length (List.filter is_poller_step schedule).

(** With the flag set, how much the thread can still do from a position:
    calls of the availability predicate, fetches, sleeps, steps. *)
Definition availability_calls_left (pc : PollerPc) : nat :=
  match pc with at_available => 1 | _ => 0 end.

Definition fetch_calls_left (pc : PollerPc) : nat :=
  match pc with at_available | at_fetch => 1 | _ => 0 end.

Definition sleeps_left (pc : PollerPc) : nat :=
  match pc with at_available | at_fetch | at_usleep => 1 | _ => 0 end.

Definition steps_left (pc : PollerPc) : nat :=
  match pc with
  | at_while => 1
  | at_available => 4
  | at_fetch => 3
  | at_usleep => 2
  | returned => 0
  end.

(** ** More to count: channels, calls, and what an iteration still owes *)

Definition is_positive_availability (e : Effect) : bool :=
  match e with isUpdatedTrajectoryAvailable true => true | _ => false end.

Definition is_trajectory_publish (e : Effect) : bool :=
  match e with trajectory_pub_publish _ => true | _ => false end.

Definition is_pose_publish (e : Effect) : bool :=
  match e with T_pub_publish _ => true | _ => false end.

Definition is_keyframe_status_publish (e : Effect) : bool :=
  match e with keyframe_status_pub_publish _ => true | _ => false end.

Definition is_broadcast (e : Effect) : bool :=
  match e with tf_broadcaster_sendTransform _ => true | _ => false end.

Definition is_call_publishCurrentPose (a : Action) : bool :=
  match a with call_publishCurrentPose _ _ => true | _ => false end.

Definition is_call_publishCurrentKeyframeStatus (a : Action) : bool :=
  match a with call_publishCurrentKeyframeStatus _ _ _ => true | _ => false end.

Definition is_timer_fires (a : Action) : bool :=
  match a with timer_fires _ _ => true | _ => false end.

Definition calls (f : Action -> bool) (schedule : list Action) : nat :=
  length (List.filter f schedule).

(** The thread has asked the engine in this iteration and has not slept
    yet. *)
Definition awaiting_sleep (pc : PollerPc) : nat :=
  match pc with at_fetch | at_usleep => 1 | _ => 0 end.

(** The engine has announced an update that the thread has not fetched
    yet. *)
Definition awaiting_fetch (pc : PollerPc) : nat :=
  match pc with at_fetch => 1 | _ => 0 end.

(** Two batches, one after the other. *)
Definition TransformsWithIds_app (m1 m2 : orb_slam_2_ros.TransformsWithIds)
  : orb_slam_2_ros.TransformsWithIds :=
  orb_slam_2_ros.mkTransformsWithIds
    (orb_slam_2_ros.transforms m1 ++ orb_slam_2_ros.transforms m2)
    (orb_slam_2_ros.keyframe_ids m1 ++ orb_slam_2_ros.keyframe_ids m2).

(** [M(i, j)] of a 4 x 4 Eigen matrix. *)
Definition Matrix4_coeff {A : Type} (M : Eigen.Matrix4 A) (i j : Z) : option A :=
  match i, j with
  | 0, 0 => Some (Eigen.c00 M) | 0, 1 => Some (Eigen.c01 M)
  | 0, 2 => Some (Eigen.c02 M) | 0, 3 => Some (Eigen.c03 M)
  | 1, 0 => Some (Eigen.c10 M) | 1, 1 => Some (Eigen.c11 M)
  | 1, 2 => Some (Eigen.c12 M) | 1, 3 => Some (Eigen.c13 M)
  | 2, 0 => Some (Eigen.c20 M) | 2, 1 => Some (Eigen.c21 M)
  | 2, 2 => Some (Eigen.c22 M) | 2, 3 => Some (Eigen.c23 M)
  | 3, 0 => Some (Eigen.c30 M) | 3, 1 => Some (Eigen.c31 M)
  | 3, 2 => Some (Eigen.c32 M) | 3, 3 => Some (Eigen.c33 M)
  | _, _ => None
  end.

(** A pose of the shape the converter accepts. *)
Definition is_4x4 (p : ORB_SLAM2.PoseWithID) : Prop :=
  cv.cols (ORB_SLAM2.pose p) = 4 /\ cv.rows (ORB_SLAM2.pose p) = 4.

(** ** Concrete inputs

    A closed instance of [Libraries] on which the model runs: the rotation
    repair sends every block to the identity rotation, for which the inverse
    below is the inverse of a rigid transformation. It stands for the
    libraries in examples only; every theorem is proved for all instances. *)

Module Sample.

Definition d0 : double := double_of_Z 0.
Definition d1 : double := double_of_Z 1.

Definition I3 : Eigen.Matrix3 double :=
  Eigen.mkMatrix3 d1 d0 d0 d0 d1 d0 d0 d0 d1.

Definition libraries : Libraries :=
  {| AngleAxisd_of_Matrix3d := fun _ =>
       Eigen.mkAngleAxisd d0 (Eigen.mkVector3 d1 d0 d0);
     toRotationMatrix := fun _ => I3;
     Quaternion_of_Matrix3d := fun _ => kindr.mkQuaternion d1 d0 d0 d0;
     inverse := fun T =>
       let q := kindr.getRotation T in
       let t := kindr.getPosition T in
       kindr.mkTransformation
         (kindr.mkQuaternion (kindr.w q)
            (SFopp (kindr.x q)) (SFopp (kindr.y q)) (SFopp (kindr.z q)))
         (Eigen.mkVector3
            (SFopp (Eigen.x t)) (SFopp (Eigen.y t)) (SFopp (Eigen.z t)));
     transformKindrToMsg := fun T =>
       geometry_msgs.mkTransform (kindr.getPosition T) (kindr.getRotation T);
     transformKindrToTF := fun T => tf.mkTransform I3 (kindr.getPosition T);
     Time_of_double := fun t =>
       match t with
       | S754_finite false m e => ros.mkTime (Z.shiftl (Zpos m) e) 0
       | _ => ros.mkTime 0 0
       end;
     kDefaultUseViewer := false;
     kDefaultVerbose := false;
     kDefaultFrameId := "world";
     kDefaultChildFrameId := "cam" |}.

Definition f (n : Z) : float := float_of_Z n.

(** n / 10000 in binary32. *)
Definition f_e4 (n : Z) : float := SFdiv 24 128 (f n) (f 10000).

(** A pose whose rotation block has drifted (determinant 0.999, an
    off-diagonal asymmetry of 1e-4), with translation (1, 2, 3). *)
Definition drifted_pose : cv.Mat :=
  cv.mkMat 4 4
    [ f_e4 9990; f_e4 1; f 0; f 1;
      f 0;       f 1;    f 0; f 2;
      f 0;       f 0;    f 1; f 3;
      f 0;       f 0;    f 0; f 1 ].

(** What the converter makes of it under [libraries]. *)
Definition T_C_W : kindr.Transformation :=
  kindr.mkTransformation
    (kindr.mkQuaternion d1 d0 d0 d0)
    (Eigen.mkVector3 (double_of_Z 1) (double_of_Z 2) (double_of_Z 3)).

(** A 3 x 4 matrix. *)
Definition short_pose : cv.Mat :=
  cv.mkMat 3 4
    [ f 1; f 0; f 0; f 1;
      f 0; f 1; f 0; f 2;
      f 0; f 0; f 1; f 3 ].

(** A snapshot of three entries with ids 5, 7 and 9. *)
Definition snapshot : list ORB_SLAM2.PoseWithID :=
  [ ORB_SLAM2.mkPoseWithID drifted_pose (double_of_Z 10) 5;
    ORB_SLAM2.mkPoseWithID drifted_pose (double_of_Z 11) 7;
    ORB_SLAM2.mkPoseWithID drifted_pose (double_of_Z 12) 9 ].

Definition engine : Engine := mkEngine true snapshot.

(** The batch the poller publishes for it under [libraries]: every
    transform is the inverse of [T_C_W], stamped with the entry's time. *)
Definition T_W_C_msg (seconds : Z) : geometry_msgs.TransformStamped :=
  geometry_msgs.mkTransformStamped
    (std_msgs.mkHeader 0 (ros.mkTime seconds 0) EmptyString)
    EmptyString
    (@transformKindrToMsg libraries (@inverse libraries T_C_W)).

Definition batch : orb_slam_2_ros.TransformsWithIds :=
  orb_slam_2_ros.mkTransformsWithIds
    [T_W_C_msg 10; T_W_C_msg 11; T_W_C_msg 12]
    [std_msgs.mkUInt64 5; std_msgs.mkUInt64 7; std_msgs.mkUInt64 9].

(** A parameter server with the two required paths and a parent frame. *)
Definition nh_private : gmap string ros.XmlRpcValue :=
  <["vocabulary_file_path" := ros.TypeString "ORBvoc.txt"]>
    (<["settings_file_path" := ros.TypeString "settings.yaml"]>
       (<["frame_id" := ros.TypeString "odom"]> ∅)).

(** The object the constructor builds from it. *)
Definition this : OrbSlam2Interface :=
  {| use_viewer_ := false;
     verbose_ := false;
     frame_id_ := "odom";
     child_frame_id_ := "cam";
     vocabulary_file_path_ := "ORBvoc.txt";
     settings_file_path_ := "settings.yaml";
     mb_shutdown_flag := false;
     T_W_C_ := kindr.identity |}.

Definition header : std_msgs.Header :=
  std_msgs.mkHeader 42 (ros.mkTime 10 500) "camera_optical".

Definition event : ros.TimerEvent :=
  ros.mkTimerEvent (ros.mkTime 9 0) (ros.mkTime 9 0) (ros.mkTime 10 0) (ros.mkTime 10 0).

(** The thread polls once and finds an update, the pose publisher runs
    in between, then the timer fires. *)
Definition schedule : list Action :=
  [ poller_step engine; poller_step engine;
    call_publishCurrentPose T_C_W header;
    poller_step engine; poller_step engine;
    timer_fires event (ros.mkTime 10 0) ].

(** The drifted pose with another bottom row. *)
Definition drifted_pose_bottom : cv.Mat :=
  cv.mkMat 4 4
    [ f_e4 9990; f_e4 1; f 0; f 1;
      f 0;       f 1;    f 0; f 2;
      f 0;       f 0;    f 1; f 3;
      f 5;       f 6;    f 7; f 8 ].

(** A 4 x 3 matrix: the column check fails before the row check. *)
Definition narrow_pose : cv.Mat :=
  cv.mkMat 4 3
    [ f 1; f 0; f 0;
      f 0; f 1; f 0;
      f 0; f 0; f 1;
      f 0; f 0; f 0 ].

(** A snapshot whose second entry is malformed. *)
Definition good_entries : list ORB_SLAM2.PoseWithID :=
  [ ORB_SLAM2.mkPoseWithID drifted_pose (double_of_Z 10) 5 ].

Definition bad_entry : ORB_SLAM2.PoseWithID :=
  ORB_SLAM2.mkPoseWithID short_pose (double_of_Z 11) 7.

Definition later_entries : list ORB_SLAM2.PoseWithID :=
  [ ORB_SLAM2.mkPoseWithID drifted_pose (double_of_Z 12) 9 ].

Definition bad_engine : Engine :=
  mkEngine true (good_entries ++ bad_entry :: later_entries).

(** A parameter server without the settings path. *)
Definition nh_without_settings : gmap string ros.XmlRpcValue :=
  <["vocabulary_file_path" := ros.TypeString "ORBvoc.txt"]> ∅.

(** The thread runs two iterations, one with an update and one without,
    while poses and keyframe statuses are published and the timer fires;
    nobody calls [shutdown]. *)
Definition busy_schedule : list Action :=
  [ poller_step engine; poller_step engine;
    call_publishCurrentPose T_C_W header;
    poller_step engine;
    call_publishCurrentKeyframeStatus true 7 header;
    poller_step engine; poller_step engine;
    timer_fires event (ros.mkTime 10 0);
    poller_step (mkEngine false []); poller_step engine;
    call_publishCurrentPose T_C_W header;
    poller_step engine ].

End Sample.

(** * Properties *)

(** ** Widening binary32 to binary64 is exact *)

Section Widening.

Lemma digits2_pos_iter_xO (m k : positive) :
  digits2_pos (Pos.iter xO m k) = (digits2_pos m + k)%positive.
Proof.
  induction k as [|k IH] using Pos.peano_ind.
  - simpl. lia.
  - rewrite Pos.iter_succ. simpl. rewrite IH. lia.
Qed.

Lemma Zpos_iter_xO (m k : positive) :
  Zpos (Pos.iter xO m k) = Zpos m * 2 ^ Zpos k.
Proof.
  induction k as [|k IH] using Pos.peano_ind.
  - simpl. lia.
  - rewrite Pos.iter_succ, Pos2Z.inj_xO, IH, Pos2Z.inj_succ, Z.pow_succ_r by lia.
    ring.
Qed.

(** A binary32 mantissa has at most 24 digits, and its exponent lies
    between that of the smallest subnormal and that of the largest
    finite value. *)
Lemma binary32_bounded (m : positive) (e : Z) :
  bounded 24 128 m e = true ->
  1 <= Zpos (digits2_pos m) <= 24 /\ -149 <= e <= 104.
Proof.
  unfold bounded, canonical_mantissa, fexp, emin.
  intros Hb. apply andb_prop in Hb as [Hc He].
  apply Z.eqb_eq in Hc. apply Z.leb_le in He. lia.
Qed.

(** Rounding a binary32 value to binary64 only shifts the mantissa up to
    53 digits: no digit is dropped, no overflow occurs. *)
Lemma binary_round_widen (s : bool) (m : positive) (e : Z) :
  bounded 24 128 m e = true ->
  let k := 53 - Zpos (digits2_pos m) in
  binary_round 53 1024 s m e
  = S754_finite s (Pos.iter xO m (Z.to_pos k)) (e - k).
Proof.
  intros Hb k. apply binary32_bounded in Hb as [Hd He].
  unfold binary_round.
  assert (Hf : fexp 53 1024 (Zpos (digits2_pos m) + e) = e - k).
  { unfold fexp, emin. lia. }
  rewrite Hf. unfold shl_align.
  assert (Hk : e - k - e = Zneg (Z.to_pos k)).
  { rewrite <- Pos2Z.opp_pos, Z2Pos.id by lia. lia. }
  rewrite Hk.
  unfold binary_round_aux, shr_fexp. cbn [Zdigits2 shr_record_of_loc].
  rewrite digits2_pos_iter_xO.
  assert (Hf' : fexp 53 1024 (Zpos (digits2_pos m + Z.to_pos k) + (e - k))
                - (e - k) = 0).
  { unfold fexp, emin. rewrite Pos2Z.inj_add, Z2Pos.id by lia. lia. }
  rewrite Hf'. cbn [shr shr_m loc_of_shr_record round_nearest_even Zdigits2].
  rewrite digits2_pos_iter_xO, Hf'. cbn [shr shr_m].
  assert (Hle : (e - k <=? 1024 - 53) = true) by (apply Z.leb_le; lia).
  now rewrite Hle.
Qed.

(** [static_cast<double>] of a [float] is a [double] and the same datum. *)
Lemma float_to_double_exact (v : float) :
  is_float v = true ->
  is_double (float_to_double v) = true /\ SFsame v (float_to_double v).
Proof.
  unfold is_float, is_double.
  destruct v as [s|s| |s m e];
    cbn [valid_binary float_to_double SFsame]; try done.
  intros Hb. rewrite binary_round_widen by done.
  pose proof (binary32_bounded _ _ Hb) as [Hd He].
  set (k := 53 - Zpos (digits2_pos m)).
  assert (Hk : 29 <= k <= 52) by lia.
  split.
  - cbn [valid_binary]. unfold bounded, canonical_mantissa.
    rewrite digits2_pos_iter_xO, Pos2Z.inj_add, Z2Pos.id by lia.
    apply andb_true_intro; split;
      [apply Z.eqb_eq; unfold fexp, emin | apply Z.leb_le]; lia.
  - cbn [SFsame SF2Q].
    assert (Hm : cond_Zopp s (Zpos (Pos.iter xO m (Z.to_pos k)))
                 = cond_Zopp s (Zpos m) * 2 ^ k).
    { rewrite Zpos_iter_xO, Z2Pos.id by lia. destruct s; cbn [cond_Zopp]; lia. }
    rewrite Hm, inject_Z_mult, Zpower_Qpower by lia.
    replace e with ((e - k) + k) at 1 by lia.
    rewrite Qpower_plus by done. change (inject_Z 2) with 2%Q.
    generalize (2 ^ k)%Q (2 ^ (e - k))%Q (inject_Z (cond_Zopp s (Zpos m))).
    intros a b c. ring.
Qed.

(** Reading a [CV_32F] matrix gives a [float], at every index. *)
Lemma at_is_float (m : cv.Mat) (i j : Z) :
  cv.is_CV_32F m -> is_float (cv.at_ m i j) = true.
Proof.
  unfold cv.is_CV_32F, cv.at_. intros Hm.
  destruct (nth_in_or_default (Z.to_nat (i * cv.cols m + j)) (cv.data m)
              (S754_zero false)) as [Hin | ->]; [|done].
  rewrite List.Forall_forall in Hm. by apply Hm.
Qed.

End Widening.

(** ** The pose converter *)

Section Converter.

Context `{Libraries}.

(** What a successful conversion has checked and what it returns. *)
Lemma convertOrbSlamPoseToKindr_Ok
    (T_cv : cv.Mat) (T_kindr : option kindr.Transformation)
    (T : kindr.Transformation) :
  convertOrbSlamPoseToKindr T_cv T_kindr = Ok T ->
  is_Some T_kindr /\ cv.cols T_cv = 4 /\ cv.rows T_cv = 4 /\
  T = kindr.mkTransformation
        (Quaternion_of_Matrix3d
           (toRotationMatrix
              (AngleAxisd_of_Matrix3d
                 (Eigen.block33_00
                    (Eigen.cast float_to_double (cv.cv2eigen T_cv))))))
        (Eigen.block31_03 (Eigen.cast float_to_double (cv.cv2eigen T_cv))).
Proof.
  unfold convertOrbSlamPoseToKindr, CHECK_NOTNULL, CHECK_EQ.
  destruct T_kindr as [T0|]; cbn; [|done].
  destruct (Z.eqb_spec (cv.cols T_cv) 4) as [Hc|Hc]; cbn; [|done].
  destruct (Z.eqb_spec (cv.rows T_cv) 4) as [Hr|Hr]; cbn; [|done].
  intros [= <-]. eauto.
Qed.

(** A 4 x 4 matrix and a destination are all the converter needs. *)
Lemma convertOrbSlamPoseToKindr_total
    (T_cv : cv.Mat) (T0 : kindr.Transformation) :
  cv.cols T_cv = 4 -> cv.rows T_cv = 4 ->
  exists T, convertOrbSlamPoseToKindr T_cv (Some T0) = Ok T.
Proof.
  intros Hc Hr. unfold convertOrbSlamPoseToKindr, CHECK_NOTNULL, CHECK_EQ.
  rewrite Hc, Hr. cbn. eauto.
Qed.

(** What a failed conversion into a destination reports. *)
Lemma convertOrbSlamPoseToKindr_Abort
    (T_cv : cv.Mat) (T0 : kindr.Transformation) (e : Fatal) :
  convertOrbSlamPoseToKindr T_cv (Some T0) = Abort e ->
  InvalidInputShape e /\ ~ (cv.rows T_cv = 4 /\ cv.cols T_cv = 4).
Proof.
  unfold convertOrbSlamPoseToKindr, CHECK_NOTNULL, CHECK_EQ. cbn.
  destruct (Z.eqb_spec (cv.cols T_cv) 4) as [Hc|Hc]; cbn.
  - destruct (Z.eqb_spec (cv.rows T_cv) 4) as [Hr|Hr]; cbn; [done|].
    intros [= <-]. cbn. split; [|tauto]. split; [by right | done].
  - intros [= <-]. cbn. split; [|tauto]. split; [by left | done].
Qed.

(** C4. For every 4 x 4 pose matrix (of binary32 elements, as the model
    of [cv::Mat] has them), the translation of the transformation that the
    converter produces is the top-right 3 x 1 block of the input: each
    component is the same datum, the widening to [double] changes
    nothing. The rotation alone goes through the angle-axis repair, which
    reads the top-left 3 x 3 block only. *)
Theorem translation_is_input_block
    (T_cv : cv.Mat) (T_kindr : option kindr.Transformation)
    (T : kindr.Transformation) :
  cv.is_CV_32F T_cv ->
  convertOrbSlamPoseToKindr T_cv T_kindr = Ok T ->
  SFsame (cv.at_ T_cv 0 3) (Eigen.x (kindr.getPosition T)) /\
  SFsame (cv.at_ T_cv 1 3) (Eigen.y (kindr.getPosition T)) /\
  SFsame (cv.at_ T_cv 2 3) (Eigen.z (kindr.getPosition T)) /\
  kindr.getRotation T =
    Quaternion_of_Matrix3d
      (toRotationMatrix
         (AngleAxisd_of_Matrix3d
            (Eigen.block33_00
               (Eigen.cast float_to_double (cv.cv2eigen T_cv))))).
Proof.
  intros Hf HT.
  apply convertOrbSlamPoseToKindr_Ok in HT as (_ & _ & _ & ->).
  cbn [kindr.getPosition kindr.getRotation Eigen.block31_03 Eigen.cast
       cv.cv2eigen Eigen.x Eigen.y Eigen.z Eigen.c03 Eigen.c13 Eigen.c23].
  repeat split; apply float_to_double_exact, at_is_float, Hf.
Qed.

(** A process that a failed check has killed: no state changes, no
    effects, whatever is scheduled. *)
Lemma run_aborted (schedule : list Action) (p : Process) :
  is_Some (aborted p) -> run schedule p = (p, []).
Proof.
  intros [e He]. induction schedule as [|a rest IH]; [done|].
  cbn [run]. unfold step. rewrite He. cbn. by rewrite IH.
Qed.

(** C5. The converter requires a matrix of exactly 4 rows and 4 columns.
    Called with a destination, it produces a transformation exactly when
    the matrix has that shape; otherwise it fails a dimension check (the
    spec's InvalidInputShape), and the failure is fatal: the process it
    kills changes no state and has no effect any more. *)
Theorem shape_is_checked (T_cv : cv.Mat) (T0 : kindr.Transformation) :
  match convertOrbSlamPoseToKindr T_cv (Some T0) with
  | Ok T => cv.rows T_cv = 4 /\ cv.cols T_cv = 4
  | Abort e =>
      InvalidInputShape e /\
      ~ (cv.rows T_cv = 4 /\ cv.cols T_cv = 4) /\
      forall (p : Process) (schedule : list Action),
        aborted p = Some e -> run schedule p = (p, [])
  end.
Proof.
  destruct (convertOrbSlamPoseToKindr T_cv (Some T0)) as [T|e] eqn:E.
  - apply convertOrbSlamPoseToKindr_Ok in E. tauto.
  - apply convertOrbSlamPoseToKindr_Abort in E as [Hs Hn].
    repeat split; [done..|].
    intros p schedule Hp. apply run_aborted. by rewrite Hp.
Qed.

End Converter.

(** ** The trajectory message *)

Section Trajectory.

Context `{Libraries}.

(** One pass through the loop body: the pose is converted, and one
    transform and one id are appended. *)
Lemma push_back_pose_Ok
    (acc msg : orb_slam_2_ros.TransformsWithIds) (p : ORB_SLAM2.PoseWithID) :
  push_back_pose acc p = Ok msg ->
  exists T_C_W,
    convertOrbSlamPoseToKindr (ORB_SLAM2.pose p) (Some kindr.identity)
    = Ok T_C_W /\
    msg = orb_slam_2_ros.mkTransformsWithIds
            (orb_slam_2_ros.transforms acc ++
             [geometry_msgs.mkTransformStamped
                (std_msgs.mkHeader 0 (Time_of_double (ORB_SLAM2.timestamp p)) EmptyString)
                EmptyString (transformKindrToMsg (inverse T_C_W))])
            (orb_slam_2_ros.keyframe_ids acc ++
             [std_msgs.mkUInt64 (ORB_SLAM2.id p)]).
Proof.
  unfold push_back_pose.
  destruct (convertOrbSlamPoseToKindr _ _) as [T|e]; cbn; [|done].
  intros [= <-]. eauto.
Qed.

(** What the body appends does not depend on the message built so far. *)
Lemma push_back_pose_alone
    (acc msg : orb_slam_2_ros.TransformsWithIds) (p : ORB_SLAM2.PoseWithID) :
  push_back_pose acc p = Ok msg ->
  exists tfm k,
    push_back_pose orb_slam_2_ros.TransformsWithIds_new p
    = Ok (orb_slam_2_ros.mkTransformsWithIds [tfm] [k]) /\
    msg = orb_slam_2_ros.mkTransformsWithIds
            (orb_slam_2_ros.transforms acc ++ [tfm])
            (orb_slam_2_ros.keyframe_ids acc ++ [k]).
Proof.
  intros Hp. apply push_back_pose_Ok in Hp as (T & HT & ->).
  do 2 eexists. split; [|reflexivity].
  unfold push_back_pose. rewrite HT. reflexivity.
Qed.

(** The loop appends one transform and one id per entry, in order. *)
Lemma for_each_pose_Ok (snapshot : list ORB_SLAM2.PoseWithID) :
  forall acc msg : orb_slam_2_ros.TransformsWithIds,
    for_each_pose snapshot acc = Ok msg ->
    exists (tfs : list geometry_msgs.TransformStamped)
           (ks : list std_msgs.UInt64),
      msg = orb_slam_2_ros.mkTransformsWithIds
              (orb_slam_2_ros.transforms acc ++ tfs)
              (orb_slam_2_ros.keyframe_ids acc ++ ks) /\
      length tfs = length snapshot /\
      length ks = length snapshot /\
      forall (i : nat) (p : ORB_SLAM2.PoseWithID),
        snapshot !! i = Some p ->
        exists tfm k,
          tfs !! i = Some tfm /\ ks !! i = Some k /\
          push_back_pose orb_slam_2_ros.TransformsWithIds_new p
          = Ok (orb_slam_2_ros.mkTransformsWithIds [tfm] [k]).
Proof.
  induction snapshot as [|p rest IH]; intros acc msg; cbn [for_each_pose].
  - intros [= <-]. exists [], []. rewrite !app_nil_r.
    destruct acc; repeat split; intros i p Hi; by destruct i.
  - destruct (push_back_pose acc p) as [acc'|e] eqn:Hp; cbn; [|done].
    intros Hrest.
    apply push_back_pose_alone in Hp as (tfm & k & Halone & ->).
    apply IH in Hrest as (tfs & ks & -> & Htfs & Hks & Hlookup).
    cbn [orb_slam_2_ros.transforms orb_slam_2_ros.keyframe_ids].
    exists (tfm :: tfs), (k :: ks). rewrite <- !app_assoc. cbn [app length].
    repeat split; [by rewrite Htfs | by rewrite Hks |].
    intros [|i] q; cbn.
    + intros [= <-]. eauto.
    + apply Hlookup.
Qed.

(** The loop fails only on an entry that the converter rejects. *)
Lemma for_each_pose_total (snapshot : list ORB_SLAM2.PoseWithID) :
  Forall (fun p => cv.cols (ORB_SLAM2.pose p) = 4 /\
                   cv.rows (ORB_SLAM2.pose p) = 4) snapshot ->
  forall acc, exists msg, for_each_pose snapshot acc = Ok msg.
Proof.
  induction 1 as [|p rest [Hc Hr] _ IH]; intros acc; cbn [for_each_pose].
  - eauto.
  - destruct (convertOrbSlamPoseToKindr_total
                (ORB_SLAM2.pose p) kindr.identity Hc Hr) as [T HT].
    unfold push_back_pose. rewrite HT. cbn. apply IH.
Qed.

(** The step at the fetch publishes a batch whenever every pose of the
    snapshot is 4 x 4. *)
Lemma fetch_publishes (this : OrbSlam2Interface) (engine : Engine) :
  Forall (fun p => cv.cols (ORB_SLAM2.pose p) = 4 /\
                   cv.rows (ORB_SLAM2.pose p) = 4)
    (updated_trajectory engine) ->
  exists msg,
    runPublishUpdatedTrajectory_step this engine at_fetch
    = (at_usleep,
       [cout "Updated trajectory available. Publishing.";
        GetUpdatedTrajectory (updated_trajectory engine);
        trajectory_pub_publish msg],
       None).
Proof.
  intros Hshape.
  destruct (for_each_pose_total _ Hshape orb_slam_2_ros.TransformsWithIds_new)
    as [msg Hmsg].
  exists msg. unfold runPublishUpdatedTrajectory_step, populate.
  by rewrite Hmsg.
Qed.

(** A step of the thread that publishes a trajectory message is the step
    at the fetch: the message is the one populated from the snapshot that
    the engine returned. *)
Lemma published_is_populated
    (this : OrbSlam2Interface) (engine : Engine) (pc : PollerPc)
    (snapshot : list ORB_SLAM2.PoseWithID)
    (msg : orb_slam_2_ros.TransformsWithIds) :
  let r := runPublishUpdatedTrajectory_step this engine pc in
  In (GetUpdatedTrajectory snapshot) r.1.2 ->
  In (trajectory_pub_publish msg) r.1.2 ->
  populate snapshot = Ok msg.
Proof.
  destruct pc; cbn.
  - by destruct (negb _).
  - intros [|[]]; done.
  - destruct (populate (updated_trajectory engine)) as [m|e] eqn:Hm; cbn.
    + intros [|[[= <-]|[|[]]]]; [done| |done].
      intros [|[|[[= <-]|[]]]]; done.
    + intros _ [|[|[]]]; done.
  - intros [|[]]; done.
  - done.
Qed.

(** C1. For every snapshot that the poller fetches, the batch message it
    publishes has as many transforms and as many keyframe ids as the
    snapshot has entries, and at every index the transform and the id are
    what the loop body makes of the snapshot's entry at that index. *)
Theorem parallel_arrays
    (this : OrbSlam2Interface) (engine : Engine) (pc : PollerPc)
    (snapshot : list ORB_SLAM2.PoseWithID)
    (msg : orb_slam_2_ros.TransformsWithIds) :
  let r := runPublishUpdatedTrajectory_step this engine pc in
  In (GetUpdatedTrajectory snapshot) r.1.2 ->
  In (trajectory_pub_publish msg) r.1.2 ->
  length (orb_slam_2_ros.transforms msg) = length snapshot /\
  length (orb_slam_2_ros.keyframe_ids msg) = length snapshot /\
  forall i : nat,
    (i < length snapshot)%nat ->
    exists p tfm k,
      snapshot !! i = Some p /\
      orb_slam_2_ros.transforms msg !! i = Some tfm /\
      orb_slam_2_ros.keyframe_ids msg !! i = Some k /\
      push_back_pose orb_slam_2_ros.TransformsWithIds_new p
      = Ok (orb_slam_2_ros.mkTransformsWithIds [tfm] [k]).
Proof.
  intros r Hfetch Hpub.
  pose proof (published_is_populated _ _ _ _ _ Hfetch Hpub) as Hm.
  apply for_each_pose_Ok in Hm as (tfs & ks & -> & Htfs & Hks & Hlookup).
  cbn. repeat split; [done..|].
  intros i Hi. apply lookup_lt_is_Some_2 in Hi as [p Hp].
  destruct (Hlookup i p Hp) as (tfm & k & ? & ? & ?).
  exists p, tfm, k. eauto.
Qed.

(** C3. For every entry of a fetched snapshot, in the order of the
    snapshot, the transform in the published batch is the message form of
    the inverse of the converted pose, stamped with the entry's timestamp,
    and the keyframe id at the same index is the entry's id. *)
Theorem entries_are_inverted_poses
    (this : OrbSlam2Interface) (engine : Engine) (pc : PollerPc)
    (snapshot : list ORB_SLAM2.PoseWithID)
    (msg : orb_slam_2_ros.TransformsWithIds) :
  let r := runPublishUpdatedTrajectory_step this engine pc in
  In (GetUpdatedTrajectory snapshot) r.1.2 ->
  In (trajectory_pub_publish msg) r.1.2 ->
  forall (i : nat) (p : ORB_SLAM2.PoseWithID),
    snapshot !! i = Some p ->
    exists T_C_W,
      convertOrbSlamPoseToKindr (ORB_SLAM2.pose p) (Some kindr.identity)
      = Ok T_C_W /\
      orb_slam_2_ros.transforms msg !! i
      = Some (geometry_msgs.mkTransformStamped
                (std_msgs.mkHeader 0
                   (Time_of_double (ORB_SLAM2.timestamp p)) EmptyString)
                EmptyString (transformKindrToMsg (inverse T_C_W))) /\
      orb_slam_2_ros.keyframe_ids msg !! i
      = Some (std_msgs.mkUInt64 (ORB_SLAM2.id p)).
Proof.
  intros r Hfetch Hpub i p Hp.
  pose proof (published_is_populated _ _ _ _ _ Hfetch Hpub) as Hm.
  apply for_each_pose_Ok in Hm as (tfs & ks & -> & _ & _ & Hlookup).
  destruct (Hlookup i p Hp) as (tfm & k & Htfm & Hk & Halone).
  apply push_back_pose_Ok in Halone as (T & HT & [= -> ->]).
  exists T. cbn. eauto.
Qed.

End Trajectory.

(** ** Shutdown and the polling loop *)

Section Shutdown.

Context `{Libraries}.

Lemma count_app (f : Effect -> bool) (t1 t2 : list Effect) :
  count f (t1 ++ t2) = (count f t1 + count f t2)%nat.
Proof. unfold count. by rewrite List.filter_app, length_app. Qed.

(** No action clears the flag. With the flag set, a step of the thread
    uses up what its position leaves it; the other actions call nothing
    of the engine and do not sleep. A step that fails a check leaves
    nothing. *)
Lemma step_flagged (a : Action) (p : Process) :
  mb_shutdown_flag (self p) = true ->
  aborted p = None ->
  let r := step a p in
  let left (f : PollerPc -> nat) :=
    match aborted r.1 with Some _ => 0%nat | None => f (poller r.1) end in
  mb_shutdown_flag (self r.1) = true /\
  (count is_availability_call r.2 + left availability_calls_left
   <= availability_calls_left (poller p))%nat /\
  (count is_fetch_call r.2 + left fetch_calls_left
   <= fetch_calls_left (poller p))%nat /\
  (count is_sleep r.2 + left sleeps_left <= sleeps_left (poller p))%nat /\
  (left steps_left <= steps_left (poller p) - poller_steps [a])%nat.
Proof.
  destruct p as [this pc ab]. cbn [self poller aborted].
  intros Hflag ->. unfold step. cbn [aborted self poller].
  destruct a as [engine| | | |]; cbn; try (repeat split; done || lia).
  destruct pc; cbn.
  - rewrite Hflag. cbn. repeat split; done || lia.
  - destruct (updated_trajectory_available engine); cbn;
      repeat split; done || lia.
  - destruct (populate (updated_trajectory engine)); cbn;
      repeat split; done || lia.
  - repeat split; done || lia.
  - repeat split; done || lia.
Qed.

(** With the flag set, whatever is scheduled: the thread calls the engine
    and sleeps as often as its position leaves it at most, and once it
    has taken the steps its position leaves it, it has returned, unless
    a failed check has killed the process. *)
Lemma run_flagged (schedule : list Action) :
  forall p : Process,
    mb_shutdown_flag (self p) = true \/ is_Some (aborted p) ->
    let r := run schedule p in
    (count is_availability_call r.2
     <= availability_calls_left (poller p))%nat /\
    (count is_fetch_call r.2 <= fetch_calls_left (poller p))%nat /\
    (count is_sleep r.2 <= sleeps_left (poller p))%nat /\
    ((steps_left (poller p) <= poller_steps schedule)%nat ->
     poller r.1 = returned \/ is_Some (aborted r.1)).
Proof.
  induction schedule as [|a rest IH]; intros p Hp.
  - cbn. repeat split; try lia.
    intros Hs. destruct (poller p); cbn in Hs; try lia. by left.
  - destruct (aborted p) as [e|] eqn:Hab.
    { rewrite run_aborted by (rewrite Hab; eauto). cbn.
      repeat split; try lia. intros _. right. rewrite Hab. eauto. }
    destruct Hp as [Hflag | [e He]]; [|congruence].
    pose proof (step_flagged a p Hflag Hab) as (Hflag' & Ha & Hf & Hs & Hn).
    cbn zeta in Ha, Hf, Hs, Hn.
    cbn [run]. cbn zeta. cbn [fst snd].
    specialize (IH (step a p).1 (or_introl Hflag')).
    destruct (aborted (step a p).1) as [e|] eqn:Hab'.
    { rewrite run_aborted by (rewrite Hab'; eauto). cbn [fst snd].
      rewrite !app_nil_r. repeat split; try lia.
      intros _. right. rewrite Hab'. eauto. }
    destruct IH as (Ha' & Hf' & Hs' & Hn').
    rewrite !count_app. repeat split; try lia.
    intros Hsteps. apply Hn'.
    change (a :: rest) with ([a] ++ rest) in Hsteps.
    unfold poller_steps in *. rewrite List.filter_app, length_app in Hsteps.
    lia.
Qed.

(** After the loop is left, the thread does nothing any more. *)
Lemma run_returned (schedule : list Action) :
  forall p : Process,
    poller p = returned ->
    let r := run schedule p in
    poller r.1 = returned /\
    count is_availability_call r.2 = 0%nat /\
    count is_fetch_call r.2 = 0%nat.
Proof.
  induction schedule as [|a rest IH]; intros p Hp; [done|].
  cbn [run]. cbn zeta. cbn [fst snd]. rewrite !count_app.
  assert (Hstep : poller (step a p).1 = returned /\
                  count is_availability_call (step a p).2 = 0%nat /\
                  count is_fetch_call (step a p).2 = 0%nat).
  { destruct p as [this pc ab]. cbn in Hp. subst pc. unfold step.
    destruct ab; [done|]. destruct a; done. }
  destruct Hstep as (Hpc & -> & ->).
  destruct (IH _ Hpc) as (? & -> & ->). done.
Qed.

(** C6. [shutdown] sets the flag and nothing else, and calling it again
    changes nothing. Once it has been called, whatever runs afterwards
    and however the threads interleave: the poller asks the engine for
    availability at most once more and fetches at most once more (the
    iteration it was in), sleeps at most once more, and after four of its
    own steps it has left the loop (or a failed check has killed the
    process); after it has left the loop it never calls the engine
    again. *)
Theorem shutdown_stops_poller (p : Process) (schedule : list Action) :
  (shutdown (shutdown (self p)) = shutdown (self p) /\
   mb_shutdown_flag (shutdown (self p)) = true /\
   (mb_shutdown_flag (self p) = true -> shutdown (self p) = self p) /\
   T_W_C_ (shutdown (self p)) = T_W_C_ (self p) /\
   frame_id_ (shutdown (self p)) = frame_id_ (self p) /\
   child_frame_id_ (shutdown (self p)) = child_frame_id_ (self p)) /\
  let flagged := (step call_shutdown p).1 in
  let r := run schedule flagged in
  (count is_availability_call r.2 <= 1)%nat /\
  (count is_fetch_call r.2 <= 1)%nat /\
  (count is_sleep r.2 <= 1)%nat /\
  ((4 <= poller_steps schedule)%nat ->
   poller r.1 = returned \/ is_Some (aborted r.1)) /\
  (poller r.1 = returned ->
   forall later : list Action,
     let r' := run later r.1 in
     poller r'.1 = returned /\
     count is_availability_call r'.2 = 0%nat /\
     count is_fetch_call r'.2 = 0%nat).
Proof.
  split.
  { repeat split; try done.
    destruct (self p); cbn. by intros ->. }
  intros flagged r.
  assert (Hflagged : mb_shutdown_flag (self flagged) = true
                     \/ is_Some (aborted flagged)).
  { subst flagged. unfold step. destruct (aborted p) eqn:Hab; cbn.
    - right. rewrite Hab. eauto.
    - by left. }
  pose proof (run_flagged schedule flagged Hflagged) as (Ha & Hf & Hs & Hn).
  fold r in Ha, Hf, Hs, Hn.
  assert (Hpc : forall pc, (availability_calls_left pc <= 1
                            /\ fetch_calls_left pc <= 1
                            /\ sleeps_left pc <= 1
                            /\ steps_left pc <= 4)%nat)
    by (intros []; cbn; lia).
  destruct (Hpc (poller flagged)) as (? & ? & ? & ?).
  repeat split; try lia.
  - intros Hsteps. apply Hn. lia.
  - apply run_returned; done.
  - apply run_returned; done.
  - apply run_returned; done.
Qed.

End Shutdown.

(** ** The publishers and the broadcaster *)

Section Publishing.

Context `{Libraries}.

(** No function of the file writes the shared pose or the frame names. *)
Lemma step_keeps_pose (a : Action) (p : Process) :
  T_W_C_ (self (step a p).1) = T_W_C_ (self p) /\
  frame_id_ (self (step a p).1) = frame_id_ (self p) /\
  child_frame_id_ (self (step a p).1) = child_frame_id_ (self p).
Proof.
  unfold step. destruct (aborted p); [done|].
  destruct a; cbn; try done.
  by destruct (runPublishUpdatedTrajectory_step _ _ _) as [[pc effects] failure].
Qed.

Lemma run_keeps_pose (schedule : list Action) :
  forall p : Process,
    T_W_C_ (self (run schedule p).1) = T_W_C_ (self p) /\
    frame_id_ (self (run schedule p).1) = frame_id_ (self p) /\
    child_frame_id_ (self (run schedule p).1) = child_frame_id_ (self p).
Proof.
  induction schedule as [|a rest IH]; intros p; [done|].
  cbn [run]. cbn zeta. cbn [fst].
  destruct (IH (step a p).1) as (-> & -> & ->). apply step_keeps_pose.
Qed.

(** The constructor leaves the shared pose default-constructed and takes
    the frame names from the parameter server, or from the defaults. *)
Lemma OrbSlam2Interface_new_Ok
    (nh_private : gmap string ros.XmlRpcValue)
    (this : OrbSlam2Interface) (effects : list Effect) :
  OrbSlam2Interface_new nh_private = Ok (this, effects) ->
  T_W_C_ this = kindr.identity /\
  mb_shutdown_flag this = false /\
  frame_id_ this
  = (ros.getParam_string nh_private "frame_id" kDefaultFrameId).2 /\
  child_frame_id_ this
  = (ros.getParam_string nh_private "child_frame_id" kDefaultChildFrameId).2.
Proof.
  unfold OrbSlam2Interface_new, getParametersFromRos, advertiseTopics, CHECK.
  cbn.
  destruct (ros.getParam_string nh_private "vocabulary_file_path" EmptyString).1;
    cbn; [|done].
  destruct (ros.getParam_string nh_private "settings_file_path" EmptyString).1;
    cbn; [|done].
  by intros [= <- <-].
Qed.

(** C9. As long as the shared pose has not been written (from the
    constructor on, whatever functions of the file have run since), every
    timer tick emits exactly one frame transform: the identity, the
    default-constructed transformation, tagged with the current time and
    with the configured parent and child frame names. *)
Theorem unwritten_pose_is_broadcast_as_identity
    (nh_private : gmap string ros.XmlRpcValue)
    (this : OrbSlam2Interface) (effects : list Effect)
    (schedule : list Action) (event : ros.TimerEvent) (now : ros.Time) :
  OrbSlam2Interface_new nh_private = Ok (this, effects) ->
  let p := (run schedule (started this)).1 in
  publishCurrentPoseAsTF event now (self p)
  = (self p,
     [tf_broadcaster_sendTransform
        (tf.mkStampedTransform
           (transformKindrToTF kindr.identity)
           now
           (ros.getParam_string nh_private "frame_id" kDefaultFrameId).2
           (ros.getParam_string nh_private "child_frame_id"
              kDefaultChildFrameId).2)]).
Proof.
  intros Hnew p.
  apply OrbSlam2Interface_new_Ok in Hnew as (HT & _ & Hf & Hc).
  destruct (run_keeps_pose schedule (started this)) as (HT' & Hf' & Hc').
  fold p in HT', Hf', Hc'. cbn [started self] in HT', Hf', Hc'.
  unfold publishCurrentPoseAsTF.
  by rewrite HT', Hf', Hc', HT, Hf, Hc.
Qed.

(** C10. The message of [publishCurrentPose] carries the caller's header
    as it is (sequence number, timestamp and parent frame id), the
    configured child frame name and the message form of the pose. The
    configured parent frame name plays no part in it, and the object is
    left as it was. *)
Theorem current_pose_keeps_header
    (T : kindr.Transformation) (header : std_msgs.Header)
    (this : OrbSlam2Interface) :
  exists msg : geometry_msgs.TransformStamped,
    publishCurrentPose T header this = (this, [T_pub_publish msg]) /\
    geometry_msgs.header msg = header /\
    geometry_msgs.child_frame_id msg = child_frame_id_ this /\
    geometry_msgs.transform msg = transformKindrToMsg T /\
    forall other : OrbSlam2Interface,
      child_frame_id_ other = child_frame_id_ this ->
      (publishCurrentPose T header other).2 = [T_pub_publish msg].
Proof.
  eexists. split; [reflexivity|]. cbn. repeat split.
  intros other Hother. unfold publishCurrentPose. cbn. by rewrite Hother.
Qed.

End Publishing.

(** * Further properties of the code *)

(** ** The arithmetic of the converter *)

Section MoreWidening.


(** X2. Lines 159-162: every coefficient of [T_eigen_d] is a [double] and
    the same datum as the element of the [cv::Mat] at the same row and
    column; the two conversions neither transpose nor round. *)
Theorem cast_of_cv2eigen_is_exact (T_cv : cv.Mat) (i j : Z) :
  cv.is_CV_32F T_cv -> 0 <= i < 4 -> 0 <= j < 4 ->
  exists d : double,
    Matrix4_coeff (Eigen.cast float_to_double (cv.cv2eigen T_cv)) i j = Some d /\
    is_double d = true /\
    SFsame (cv.at_ T_cv i j) d.
Proof.
  intros Hf Hi Hj.
  assert (Hi' : i = 0 \/ i = 1 \/ i = 2 \/ i = 3) by lia.
  assert (Hj' : j = 0 \/ j = 1 \/ j = 2 \/ j = 3) by lia.
  destruct Hi' as [->|[->|[->| ->]]], Hj' as [->|[->|[->| ->]]];
    (eexists; split; [reflexivity|]);
    apply float_to_double_exact, at_is_float, Hf.
Qed.

End MoreWidening.

Section MoreConverter.

Context `{Libraries}.

(** X3. The converter reports the first check that fails, in the order of
    the source: the null destination, whatever the matrix; then the
    columns, whatever the rows; then the rows. *)
Theorem converter_reports_first_failed_check
    (T_cv : cv.Mat) (T0 : kindr.Transformation) :
  convertOrbSlamPoseToKindr T_cv None = Abort (CheckNotNull_failed "T_kindr") /\
  (cv.cols T_cv <> 4 ->
   convertOrbSlamPoseToKindr T_cv (Some T0)
   = Abort (CheckEq_failed "T_cv.cols" (cv.cols T_cv) 4)) /\
  (cv.cols T_cv = 4 -> cv.rows T_cv <> 4 ->
   convertOrbSlamPoseToKindr T_cv (Some T0)
   = Abort (CheckEq_failed "T_cv.rows" (cv.rows T_cv) 4)).
Proof.
  unfold convertOrbSlamPoseToKindr, CHECK_NOTNULL, CHECK_EQ. cbn.
  split; [done|]. split.
  - intros Hc. by destruct (Z.eqb_spec (cv.cols T_cv) 4).
  - intros -> Hr. cbn. by destruct (Z.eqb_spec (cv.rows T_cv) 4).
Qed.

(** X4. The converter reads the top three rows of the matrix only: the
    bottom row is neither used nor checked to be (0, 0, 0, 1), and what the
    destination held before plays no part. *)
Theorem converter_reads_top_rows_only
    (A B : cv.Mat) (TA TB : kindr.Transformation) :
  cv.rows A = cv.rows B -> cv.cols A = cv.cols B ->
  (forall i j : Z, 0 <= i < 3 -> 0 <= j < 4 -> cv.at_ A i j = cv.at_ B i j) ->
  convertOrbSlamPoseToKindr A (Some TA) = convertOrbSlamPoseToKindr B (Some TB).
Proof.
  intros Hr Hc Hat.
  unfold convertOrbSlamPoseToKindr, CHECK_NOTNULL, CHECK_EQ. cbn.
  rewrite Hr, Hc.
  destruct (cv.cols B =? 4); cbn; [|done].
  destruct (cv.rows B =? 4); cbn; [|done].
  unfold Eigen.block33_00, Eigen.block31_03, Eigen.cast, cv.cv2eigen. cbn.
  by rewrite !Hat by lia.
Qed.

End MoreConverter.

(** ** Batches *)

Section MoreTrajectory.

Context `{Libraries}.

Lemma TransformsWithIds_app_new_r (m : orb_slam_2_ros.TransformsWithIds) :
  TransformsWithIds_app m orb_slam_2_ros.TransformsWithIds_new = m.
Proof. destruct m. unfold TransformsWithIds_app. cbn. by rewrite !app_nil_r. Qed.

Lemma TransformsWithIds_app_assoc (m1 m2 m3 : orb_slam_2_ros.TransformsWithIds) :
  TransformsWithIds_app (TransformsWithIds_app m1 m2) m3
  = TransformsWithIds_app m1 (TransformsWithIds_app m2 m3).
Proof. unfold TransformsWithIds_app. cbn. by rewrite !app_assoc. Qed.

(** The loop body appends to the message what it makes of the entry
    alone, and fails as it fails on the entry alone. *)
Lemma push_back_pose_app
    (acc : orb_slam_2_ros.TransformsWithIds) (p : ORB_SLAM2.PoseWithID) :
  push_back_pose acc p
  = m ← push_back_pose orb_slam_2_ros.TransformsWithIds_new p;
    Ok (TransformsWithIds_app acc m).
Proof.
  unfold push_back_pose.
  by destruct (convertOrbSlamPoseToKindr _ _) as [T|e].
Qed.

Lemma for_each_pose_from (snapshot : list ORB_SLAM2.PoseWithID) :
  forall acc : orb_slam_2_ros.TransformsWithIds,
    for_each_pose snapshot acc
    = m ← for_each_pose snapshot orb_slam_2_ros.TransformsWithIds_new;
      Ok (TransformsWithIds_app acc m).
Proof.
  induction snapshot as [|p rest IH]; intros acc; cbn [for_each_pose].
  - cbn. by rewrite TransformsWithIds_app_new_r.
  - rewrite push_back_pose_app.
    destruct (push_back_pose orb_slam_2_ros.TransformsWithIds_new p)
      as [m1|e]; cbn; [|done].
    rewrite (IH (TransformsWithIds_app acc m1)), (IH m1).
    destruct (for_each_pose rest orb_slam_2_ros.TransformsWithIds_new)
      as [m2|e]; cbn; [|done].
    by rewrite TransformsWithIds_app_assoc.
Qed.

Lemma for_each_pose_app (s1 s2 : list ORB_SLAM2.PoseWithID) :
  forall acc : orb_slam_2_ros.TransformsWithIds,
    for_each_pose (s1 ++ s2) acc
    = acc' ← for_each_pose s1 acc; for_each_pose s2 acc'.
Proof.
  induction s1 as [|p rest IH]; intros acc; cbn [for_each_pose app]; [done|].
  destruct (push_back_pose acc p) as [acc'|e]; cbn; [|done]. apply IH.
Qed.

(** X5. The batch of two snapshots one after the other is the batch of the
    first followed by the batch of the second, and it fails with the
    failure of the first part that fails: entries are converted one by
    one, none looks at another. In particular the empty snapshot gives the
    empty batch. *)
Theorem populate_app (s1 s2 : list ORB_SLAM2.PoseWithID) :
  populate [] = Ok orb_slam_2_ros.TransformsWithIds_new /\
  populate (s1 ++ s2)
  = m1 ← populate s1; m2 ← populate s2; Ok (TransformsWithIds_app m1 m2).
Proof.
  split; [done|].
  unfold populate. rewrite for_each_pose_app.
  destruct (for_each_pose s1 orb_slam_2_ros.TransformsWithIds_new)
    as [m1|e]; cbn; [|done].
  apply for_each_pose_from.
Qed.

(** X6. A snapshot with a malformed pose: the poller has fetched it and
    publishes nothing of it, not even the entries before the malformed
    one; the failure is that of the first malformed pose, it kills the
    process, and no channel carries anything afterwards. *)
Theorem malformed_pose_kills_the_batch
    (this : OrbSlam2Interface) (engine : Engine)
    (good rest : list ORB_SLAM2.PoseWithID) (bad : ORB_SLAM2.PoseWithID) :
  updated_trajectory engine = good ++ bad :: rest ->
  Forall is_4x4 good ->
  ~ is_4x4 bad ->
  exists e : Fatal,
    convertOrbSlamPoseToKindr (ORB_SLAM2.pose bad) (Some kindr.identity)
    = Abort e /\
    InvalidInputShape e /\
    runPublishUpdatedTrajectory_step this engine at_fetch
    = (at_fetch,
       [cout "Updated trajectory available. Publishing.";
        GetUpdatedTrajectory (updated_trajectory engine)],
       Some e) /\
    forall later : list Action,
      (run later (step (poller_step engine) (mkProcess this at_fetch None)).1).2
      = [].
Proof.
  intros Hsnap Hgood Hbad.
  destruct (convertOrbSlamPoseToKindr (ORB_SLAM2.pose bad) (Some kindr.identity))
    as [T|e] eqn:Hconv.
  { apply convertOrbSlamPoseToKindr_Ok in Hconv as (_ & Hc & Hr & _).
    by destruct Hbad. }
  pose proof (convertOrbSlamPoseToKindr_Abort _ _ _ Hconv) as [Hshape _].
  assert (Hpop : populate (updated_trajectory engine) = Abort e).
  { rewrite Hsnap. unfold populate. rewrite for_each_pose_app.
    destruct (for_each_pose_total good Hgood
                orb_slam_2_ros.TransformsWithIds_new) as [m Hm].
    rewrite Hm. unfold mbind, result_bind. cbn [glog.bind for_each_pose].
    unfold push_back_pose. by rewrite Hconv. }
  assert (Hstep : runPublishUpdatedTrajectory_step this engine at_fetch
                  = (at_fetch,
                     [cout "Updated trajectory available. Publishing.";
                      GetUpdatedTrajectory (updated_trajectory engine)],
                     Some e)).
  { unfold runPublishUpdatedTrajectory_step. by rewrite Hpop. }
  exists e. repeat split; [done..|].
  intros later. unfold step at 1. cbn [aborted self poller].
  rewrite Hstep. cbn [fst]. by rewrite run_aborted.
Qed.

End MoreTrajectory.

(** ** The loop and the channels over a whole run *)

Section MoreLoop.

Context `{Libraries}.

Lemma calls_app (f : Action -> bool) (s1 s2 : list Action) :
  calls f (s1 ++ s2) = (calls f s1 + calls f s2)%nat.
Proof. unfold calls. by rewrite List.filter_app, length_app. Qed.

(** A process that is alive at the end was alive all along. *)
Lemma step_alive (a : Action) (p : Process) :
  aborted (step a p).1 = None -> aborted p = None.
Proof. unfold step. by destruct (aborted p) eqn:Hab; cbn; rewrite ?Hab. Qed.

Lemma run_alive (schedule : list Action) :
  forall p : Process, aborted (run schedule p).1 = None -> aborted p = None.
Proof.
  induction schedule as [|a rest IH]; intros p; [done|].
  cbn [run]. cbn zeta. cbn [fst]. intros Hend.
  apply (step_alive a). by apply IH.
Qed.

(** X7. The flag is never cleared: once set, it stays set through every
    function of the file, in every interleaving. *)
Theorem flag_is_never_cleared (schedule : list Action) (p : Process) :
  mb_shutdown_flag (self p) = true ->
  mb_shutdown_flag (self (run schedule p).1) = true.
Proof.
  revert p. induction schedule as [|a rest IH]; intros p Hflag; [done|].
  cbn [run]. cbn zeta. cbn [fst]. apply IH.
  unfold step. destruct (aborted p); [done|].
  destruct a; cbn; try done.
  by destruct (runPublishUpdatedTrajectory_step _ _ _) as [[pc effects] failure].
Qed.

(** X8. Only [shutdown] ends the loop: as long as nobody calls it, the
    flag stays clear and the thread does not leave the loop, whatever the
    engine answers and whatever else runs. *)
Theorem loop_ends_only_by_shutdown (schedule : list Action) (p : Process) :
  mb_shutdown_flag (self p) = false ->
  poller p <> returned ->
  ~ In call_shutdown schedule ->
  mb_shutdown_flag (self (run schedule p).1) = false /\
  poller (run schedule p).1 <> returned.
Proof.
  revert p. induction schedule as [|a rest IH]; intros p Hflag Hpc Hno; [done|].
  cbn [run]. cbn zeta. cbn [fst].
  assert (Hstep : mb_shutdown_flag (self (step a p).1) = false /\
                  poller (step a p).1 <> returned).
  { destruct p as [this pc ab]. cbn in Hflag, Hpc. unfold step.
    destruct ab; [done|]. cbn [aborted self poller].
    destruct a as [engine| | | |]; cbn; try done.
    - destruct pc; cbn; try done.
      + by rewrite Hflag.
      + by destruct (updated_trajectory_available engine).
      + by destruct (populate (updated_trajectory engine)).
    - destruct Hno. by left. }
  destruct Hstep as [Hflag' Hpc']. apply IH; [done..|].
  intros Hin. apply Hno. by right.
Qed.

(** Every step keeps the balance of availability calls and sleeps. *)
Lemma step_sleep_balance (a : Action) (p : Process) :
  let r := step a p in
  (count is_availability_call r.2 + awaiting_sleep (poller p)
   = count is_sleep r.2 + awaiting_sleep (poller r.1))%nat /\
  Forall (fun e => forall usec, e = usleep usec -> usec = 5000) r.2.
Proof.
  destruct p as [this pc ab]. unfold step. cbn [aborted self poller].
  destruct ab; [by split|].
  destruct a as [engine| | | |]; cbn;
    try (split; [done | repeat constructor; done]).
  destruct pc; cbn.
  - destruct (negb _); by split.
  - destruct (updated_trajectory_available engine); cbn;
      (split; [done | repeat constructor; done]).
  - destruct (populate (updated_trajectory engine)); cbn;
      (split; [done | repeat constructor; done]).
  - split; [done|]. repeat constructor. by intros usec [= <-].
  - by split.
Qed.

Lemma run_sleep_balance (schedule : list Action) :
  forall p : Process,
    let r := run schedule p in
    (count is_availability_call r.2 + awaiting_sleep (poller p)
     = count is_sleep r.2 + awaiting_sleep (poller r.1))%nat /\
    Forall (fun e => forall usec, e = usleep usec -> usec = 5000) r.2.
Proof.
  induction schedule as [|a rest IH]; intros p; [by split|].
  cbn [run]. cbn zeta. cbn [fst snd].
  destruct (step_sleep_balance a p) as [Hs Hf].
  destruct (IH (step a p).1) as [Hs' Hf'].
  rewrite !count_app. split; [lia|]. by apply Forall_app.
Qed.

(** X9. The poller does not spin: from its start on, in every run, it has
    slept once for every time it has asked the engine, the last time
    apart, and every sleep is one of 5000 microseconds. *)
Theorem one_sleep_per_availability_call
    (this : OrbSlam2Interface) (schedule : list Action) :
  let trace := (run schedule (started this)).2 in
  (count is_sleep trace <= count is_availability_call trace
   <= count is_sleep trace + 1)%nat /\
  Forall (fun e => forall usec, e = usleep usec -> usec = 5000) trace.
Proof.
  intros trace.
  destruct (run_sleep_balance schedule (started this)) as [Hs Hf].
  fold trace in Hs, Hf. split; [|done].
  cbn [started poller awaiting_sleep] in Hs.
  destruct (poller (run schedule (started this)).1); cbn in Hs; lia.
Qed.

(** Every step keeps the balance of announced updates, fetches and
    published batches. *)
Lemma step_fetch_balance (a : Action) (p : Process) :
  aborted p = None ->
  let r := step a p in
  let dead := match aborted r.1 with Some _ => 1%nat | None => 0%nat end in
  (count is_fetch_call r.2 + (1 - dead) * awaiting_fetch (poller r.1)
   = count is_positive_availability r.2 + awaiting_fetch (poller p))%nat /\
  (count is_fetch_call r.2 = count is_trajectory_publish r.2 + dead)%nat.
Proof.
  destruct p as [this pc ab]. cbn [aborted]. intros ->.
  unfold step. cbn [aborted self poller].
  destruct a as [engine| | | |]; cbn; try done.
  destruct pc; cbn; try done.
  - by destruct (negb _).
  - by destruct (updated_trajectory_available engine).
  - by destruct (populate (updated_trajectory engine)).
Qed.

Lemma run_fetch_balance (schedule : list Action) :
  forall p : Process,
    aborted p = None ->
    let r := run schedule p in
    let dead := match aborted r.1 with Some _ => 1%nat | None => 0%nat end in
    (count is_fetch_call r.2 + (1 - dead) * awaiting_fetch (poller r.1)
     = count is_positive_availability r.2 + awaiting_fetch (poller p))%nat /\
    (count is_fetch_call r.2 = count is_trajectory_publish r.2 + dead)%nat.
Proof.
  induction schedule as [|a rest IH]; intros p Hab.
  - cbn. rewrite Hab. lia.
  - cbn [run]. cbn zeta. cbn [fst snd].
    pose proof (step_fetch_balance a p Hab) as [Hf Hp]. cbn zeta in Hf, Hp.
    destruct (aborted (step a p).1) as [e|] eqn:Hab'.
    + rewrite run_aborted by (rewrite Hab'; eauto). cbn [fst snd].
      rewrite !app_nil_r, Hab'. lia.
    + destruct (IH (step a p).1 Hab') as [Hf' Hp'].
      rewrite !count_app. lia.
Qed.

(** X10. The poller fetches only what the engine has announced, and
    publishes what it fetches: in every run from its start, there are no
    more fetches than positive availability answers, every batch
    published follows a fetch, and every fetch has led to a batch, except
    the one whose conversion killed the process. *)
Theorem fetches_follow_announcements
    (this : OrbSlam2Interface) (schedule : list Action) :
  let r := run schedule (started this) in
  (count is_fetch_call r.2 <= count is_positive_availability r.2)%nat /\
  (count is_trajectory_publish r.2 <= count is_fetch_call r.2
   <= count is_trajectory_publish r.2 + 1)%nat /\
  (aborted r.1 = None ->
   count is_trajectory_publish r.2 = count is_fetch_call r.2).
Proof.
  intros r.
  destruct (run_fetch_balance schedule (started this) eq_refl) as [Hf Hp].
  fold r in Hf, Hp. cbn [started poller awaiting_fetch] in Hf.
  destruct (aborted r.1); repeat split; try lia. done.
Qed.

(** What a step of a live process puts on the three other channels. *)
Lemma step_channels (a : Action) (p : Process) :
  aborted p = None ->
  count is_pose_publish (step a p).2 = calls is_call_publishCurrentPose [a] /\
  count is_keyframe_status_publish (step a p).2
  = calls is_call_publishCurrentKeyframeStatus [a] /\
  count is_broadcast (step a p).2 = calls is_timer_fires [a].
Proof.
  destruct p as [this pc ab]. cbn [aborted]. intros ->.
  unfold step. cbn [aborted self poller].
  destruct a as [engine| | | |]; cbn; try done.
  destruct pc; cbn; try done;
    first [ by destruct (negb _)
          | by destruct (populate (updated_trajectory engine)) ].
Qed.

(** X11. Nothing is lost and nothing is doubled on the other channels: in
    a run that no failed check has ended, there is one message on the
    current-pose channel per call of [publishCurrentPose], one on the
    keyframe-status channel per call of [publishCurrentKeyframeStatus], and
    one broadcast per timer event, whatever the poller does in between. *)
Theorem one_message_per_call (schedule : list Action) (p : Process) :
  aborted (run schedule p).1 = None ->
  count is_pose_publish (run schedule p).2
  = calls is_call_publishCurrentPose schedule /\
  count is_keyframe_status_publish (run schedule p).2
  = calls is_call_publishCurrentKeyframeStatus schedule /\
  count is_broadcast (run schedule p).2 = calls is_timer_fires schedule.
Proof.
  revert p. induction schedule as [|a rest IH]; intros p; [done|].
  cbn [run]. cbn zeta. cbn [fst snd]. intros Hend.
  pose proof (run_alive rest _ Hend) as Hab'.
  pose proof (step_alive a p Hab') as Hab.
  destruct (step_channels a p Hab) as (Hp & Hk & Hb).
  destruct (IH _ Hend) as (Hp' & Hk' & Hb').
  change (a :: rest) with ([a] ++ rest).
  rewrite !count_app, !calls_app. lia.
Qed.

End MoreLoop.

(** ** The constructor and the keyframe status *)

Section MoreConstruction.

Context `{Libraries}.

(** X12. The constructor needs the two paths: it builds an object exactly
    when the parameter server holds a string under [vocabulary_file_path]
    and a string under [settings_file_path], and stores them. Otherwise it
    fails the check of the first of the two that is missing, with the
    message of that check. On success it has advertised the three topics
    with a queue of one message and created the timer of 0.1 s. *)
Theorem constructor_requires_paths (nh_private : gmap string ros.XmlRpcValue) :
  match OrbSlam2Interface_new nh_private with
  | Ok (this, effects) =>
      nh_private !! "vocabulary_file_path"
      = Some (ros.TypeString (vocabulary_file_path_ this)) /\
      nh_private !! "settings_file_path"
      = Some (ros.TypeString (settings_file_path_ this)) /\
      effects = [advertise "transform_cam" 1;
                 advertise "trajectory_cam" 1;
                 advertise "keyframe_status" 1;
                 createTimer (ros.mkDuration 0 100000000)]
  | Abort e =>
      (e = Check_failed
             "Please provide the vocabulary_file_path as a ros param." /\
       forall path, nh_private !! "vocabulary_file_path"
                    <> Some (ros.TypeString path))
      \/
      (e = Check_failed
             "Please provide the settings_file_path as a ros param." /\
       (exists path, nh_private !! "vocabulary_file_path"
                     = Some (ros.TypeString path)) /\
       forall path, nh_private !! "settings_file_path"
                    <> Some (ros.TypeString path))
  end.
Proof.
  unfold OrbSlam2Interface_new, getParametersFromRos, advertiseTopics, CHECK,
    ros.getParam_string.
  cbn.
  destruct (nh_private !! "vocabulary_file_path") as [[b|i|d|v]|] eqn:Hv; cbn;
    try (left; split; [done|]; intros path; congruence).
  destruct (nh_private !! "settings_file_path") as [[b|i|d|t]|] eqn:Ht; cbn;
    try (right; split; [done|]; split; [eauto|]; intros path; congruence).
  done.
Qed.

(** X13. The optional parameters: a boolean under [use_viewer] or
    [verbose], a string under [frame_id] or [child_frame_id] replaces the
    default of interface.hpp; where the key is absent, or holds a value of
    another type, the default stays. The object starts with the flag
    clear. *)
Theorem constructor_optional_parameters
    (nh_private : gmap string ros.XmlRpcValue)
    (this : OrbSlam2Interface) (effects : list Effect) :
  OrbSlam2Interface_new nh_private = Ok (this, effects) ->
  use_viewer_ this
  = match nh_private !! "use_viewer" with
    | Some (ros.TypeBoolean b) => b
    | _ => kDefaultUseViewer
    end /\
  verbose_ this
  = match nh_private !! "verbose" with
    | Some (ros.TypeBoolean b) => b
    | _ => kDefaultVerbose
    end /\
  frame_id_ this
  = match nh_private !! "frame_id" with
    | Some (ros.TypeString name) => name
    | _ => kDefaultFrameId
    end /\
  child_frame_id_ this
  = match nh_private !! "child_frame_id" with
    | Some (ros.TypeString name) => name
    | _ => kDefaultChildFrameId
    end /\
  mb_shutdown_flag this = false.
Proof.
  unfold OrbSlam2Interface_new, getParametersFromRos, advertiseTopics, CHECK.
  cbn.
  destruct (ros.getParam_string nh_private "vocabulary_file_path" _).1;
    cbn; [|done].
  destruct (ros.getParam_string nh_private "settings_file_path" _).1;
    cbn; [|done].
  intros [= <- _]. cbn. unfold ros.getParam_bool, ros.getParam_string.
  repeat split.
  - by destruct (nh_private !! "use_viewer") as [[]|].
  - by destruct (nh_private !! "verbose") as [[]|].
  - by destruct (nh_private !! "frame_id") as [[]|].
  - by destruct (nh_private !! "child_frame_id") as [[]|].
Qed.

(** X14. The keyframe-status message takes the time of the frame header
    and nothing else of it: sequence number and frame id are those of a
    fresh message, so two headers with the same stamp give the same
    message. Status and keyframe id are passed on, one message goes to
    the keyframe-status channel, and the object is left as it was. *)
Theorem keyframe_status_keeps_stamp_only
    (keyframe_status : bool) (last_keyframe_id : Z)
    (frame_header other_header : std_msgs.Header) (this : OrbSlam2Interface) :
  std_msgs.stamp other_header = std_msgs.stamp frame_header ->
  exists msg : orb_slam_2_ros.KeyframeStatus,
    publishCurrentKeyframeStatus keyframe_status last_keyframe_id
      frame_header this
    = (this, [keyframe_status_pub_publish msg]) /\
    publishCurrentKeyframeStatus keyframe_status last_keyframe_id
      other_header this
    = (this, [keyframe_status_pub_publish msg]) /\
    orb_slam_2_ros.header msg
    = std_msgs.mkHeader 0 (std_msgs.stamp frame_header) EmptyString /\
    orb_slam_2_ros.status msg = keyframe_status /\
    std_msgs.data (orb_slam_2_ros.keyframe_id msg) = last_keyframe_id.
Proof.
  intros Hstamp. eexists. split; [reflexivity|].
  unfold publishCurrentKeyframeStatus. by rewrite Hstamp.
Qed.

End MoreConstruction.

(** * The theorems on concrete inputs *)

(** C1 on the snapshot of three entries. *)
Lemma parallel_arrays_witness :
  let r := @runPublishUpdatedTrajectory_step Sample.libraries
             Sample.this Sample.engine at_fetch in
  In (GetUpdatedTrajectory Sample.snapshot) r.1.2 /\
  In (trajectory_pub_publish Sample.batch) r.1.2 /\
  length (orb_slam_2_ros.transforms Sample.batch) = length Sample.snapshot /\
  length (orb_slam_2_ros.keyframe_ids Sample.batch) = length Sample.snapshot /\
  forall i : nat,
    (i < length Sample.snapshot)%nat ->
    exists p tfm k,
      Sample.snapshot !! i = Some p /\
      orb_slam_2_ros.transforms Sample.batch !! i = Some tfm /\
      orb_slam_2_ros.keyframe_ids Sample.batch !! i = Some k /\
      @push_back_pose Sample.libraries orb_slam_2_ros.TransformsWithIds_new p
      = Ok (orb_slam_2_ros.mkTransformsWithIds [tfm] [k]).
Proof.
  intros r.
  assert (Hfetch : In (GetUpdatedTrajectory Sample.snapshot) r.1.2)
    by (right; left; reflexivity).
  assert (Hpub : In (trajectory_pub_publish Sample.batch) r.1.2)
    by (right; right; left; vm_compute; reflexivity).
  split; [exact Hfetch|]. split; [exact Hpub|].
  exact (@parallel_arrays Sample.libraries Sample.this Sample.engine at_fetch
           Sample.snapshot Sample.batch Hfetch Hpub).
Defined.

(** C3 on the last entry of that snapshot: the ids of the batch are 5, 7
    and 9 in that order, and the third transform is the inverted pose. *)
Lemma entries_are_inverted_poses_witness :
  let r := @runPublishUpdatedTrajectory_step Sample.libraries
             Sample.this Sample.engine at_fetch in
  let p := ORB_SLAM2.mkPoseWithID Sample.drifted_pose (double_of_Z 12) 9 in
  In (GetUpdatedTrajectory Sample.snapshot) r.1.2 /\
  In (trajectory_pub_publish Sample.batch) r.1.2 /\
  Sample.snapshot !! 2%nat = Some p /\
  exists T_C_W,
    @convertOrbSlamPoseToKindr Sample.libraries
      (ORB_SLAM2.pose p) (Some kindr.identity) = Ok T_C_W /\
    orb_slam_2_ros.transforms Sample.batch !! 2%nat
    = Some (geometry_msgs.mkTransformStamped
              (std_msgs.mkHeader 0
                 (@Time_of_double Sample.libraries (ORB_SLAM2.timestamp p))
                 EmptyString)
              EmptyString
              (@transformKindrToMsg Sample.libraries
                 (@inverse Sample.libraries T_C_W))) /\
    orb_slam_2_ros.keyframe_ids Sample.batch !! 2%nat
    = Some (std_msgs.mkUInt64 (ORB_SLAM2.id p)).
Proof.
  intros r p.
  assert (Hfetch : In (GetUpdatedTrajectory Sample.snapshot) r.1.2)
    by (right; left; reflexivity).
  assert (Hpub : In (trajectory_pub_publish Sample.batch) r.1.2)
    by (right; right; left; vm_compute; reflexivity).
  assert (Hp : Sample.snapshot !! 2%nat = Some p) by reflexivity.
  split; [exact Hfetch|]. split; [exact Hpub|]. split; [exact Hp|].
  exact (@entries_are_inverted_poses Sample.libraries Sample.this Sample.engine
           at_fetch Sample.snapshot Sample.batch Hfetch Hpub 2%nat p Hp).
Defined.

(** C4 on the drifted pose with translation (1, 2, 3): the output
    translation is exactly (1, 2, 3). *)
Lemma translation_is_input_block_witness :
  cv.is_CV_32F Sample.drifted_pose /\
  @convertOrbSlamPoseToKindr Sample.libraries
    Sample.drifted_pose (Some kindr.identity) = Ok Sample.T_C_W /\
  SFsame (Sample.f 1) (double_of_Z 1) /\
  SFsame (Sample.f 2) (double_of_Z 2) /\
  SFsame (Sample.f 3) (double_of_Z 3) /\
  kindr.getRotation Sample.T_C_W
  = kindr.mkQuaternion Sample.d1 Sample.d0 Sample.d0 Sample.d0.
Proof.
  assert (Hf : cv.is_CV_32F Sample.drifted_pose) by (repeat constructor).
  assert (HT : @convertOrbSlamPoseToKindr Sample.libraries
                 Sample.drifted_pose (Some kindr.identity) = Ok Sample.T_C_W)
    by (vm_compute; reflexivity).
  split; [exact Hf|]. split; [exact HT|].
  exact (@translation_is_input_block Sample.libraries
           Sample.drifted_pose (Some kindr.identity) Sample.T_C_W Hf HT).
Defined.

(** C5 on a 4 x 4 and on a 3 x 4 matrix. *)
Lemma shape_is_checked_witness :
  (cv.rows Sample.drifted_pose = 4 /\ cv.cols Sample.drifted_pose = 4) /\
  (InvalidInputShape (CheckEq_failed "T_cv.rows" 3 4) /\
   ~ (cv.rows Sample.short_pose = 4 /\ cv.cols Sample.short_pose = 4) /\
   forall (p : Process) (schedule : list Action),
     aborted p = Some (CheckEq_failed "T_cv.rows" 3 4) ->
     @run Sample.libraries schedule p = (p, [])).
Proof.
  split.
  - exact (@shape_is_checked Sample.libraries Sample.drifted_pose kindr.identity).
  - exact (@shape_is_checked Sample.libraries Sample.short_pose kindr.identity).
Defined.

(** C6 on a thread that is about to ask the engine when [shutdown] is
    called. *)
Lemma shutdown_stops_poller_witness :
  let flagged :=
    (@step Sample.libraries call_shutdown
       (mkProcess Sample.this at_available None)).1 in
  let r := @run Sample.libraries Sample.schedule flagged in
  (count is_availability_call r.2 <= 1)%nat /\
  (count is_fetch_call r.2 <= 1)%nat /\
  (count is_sleep r.2 <= 1)%nat /\
  poller r.1 = returned.
Proof.
  intros flagged r.
  destruct (@shutdown_stops_poller Sample.libraries
              (mkProcess Sample.this at_available None) Sample.schedule)
    as (_ & Ha & Hf & Hs & _).
  split; [exact Ha|]. split; [exact Hf|]. split; [exact Hs|].
  vm_compute. reflexivity.
Defined.

(** C9 on the object built from the sample parameter server, after the
    sample schedule. *)
Lemma unwritten_pose_is_broadcast_as_identity_witness :
  let p := (@run Sample.libraries Sample.schedule
              (started Sample.this)).1 in
  @OrbSlam2Interface_new Sample.libraries Sample.nh_private
  = Ok (Sample.this,
        [advertise "transform_cam" 1; advertise "trajectory_cam" 1;
         advertise "keyframe_status" 1;
         createTimer (ros.mkDuration 0 100000000)]) /\
  @publishCurrentPoseAsTF Sample.libraries Sample.event (ros.mkTime 11 0) (self p)
  = (self p,
     [tf_broadcaster_sendTransform
        (tf.mkStampedTransform
           (@transformKindrToTF Sample.libraries kindr.identity)
           (ros.mkTime 11 0) "odom" "cam")]).
Proof.
  intros p.
  assert (Hnew : @OrbSlam2Interface_new Sample.libraries Sample.nh_private
                 = Ok (Sample.this,
                       [advertise "transform_cam" 1; advertise "trajectory_cam" 1;
                        advertise "keyframe_status" 1;
                        createTimer (ros.mkDuration 0 100000000)]))
    by (vm_compute; reflexivity).
  split; [exact Hnew|].
  exact (@unwritten_pose_is_broadcast_as_identity Sample.libraries
           Sample.nh_private Sample.this _ Sample.schedule Sample.event
           (ros.mkTime 11 0) Hnew).
Defined.

(** C10 on a header whose parent frame differs from the configured one. *)
Lemma current_pose_keeps_header_witness :
  exists msg : geometry_msgs.TransformStamped,
    @publishCurrentPose Sample.libraries Sample.T_C_W Sample.header Sample.this
    = (Sample.this, [T_pub_publish msg]) /\
    std_msgs.frame_id (geometry_msgs.header msg) = "camera_optical" /\
    std_msgs.stamp (geometry_msgs.header msg) = ros.mkTime 10 500 /\
    geometry_msgs.child_frame_id msg = "cam".
Proof.
  destruct (@current_pose_keeps_header Sample.libraries
              Sample.T_C_W Sample.header Sample.this)
    as (msg & Hpub & Hheader & Hchild & _).
  exists msg. rewrite Hheader, Hchild. split; [exact Hpub|]. repeat split.
Defined.

(** * The further properties on concrete inputs *)


(** X2 on the coefficient (0, 1) of the drifted pose, the 1e-4. *)
Lemma cast_of_cv2eigen_is_exact_witness :
  cv.is_CV_32F Sample.drifted_pose /\
  exists d : double,
    Matrix4_coeff
      (Eigen.cast float_to_double (cv.cv2eigen Sample.drifted_pose)) 0 1
    = Some d /\
    is_double d = true /\
    SFsame (Sample.f_e4 1) d.
Proof.
  assert (Hf : cv.is_CV_32F Sample.drifted_pose) by (repeat constructor).
  split; [exact Hf|].
  apply (cast_of_cv2eigen_is_exact Sample.drifted_pose 0 1 Hf); lia.
Defined.

(** X3 on a 4 x 3 matrix: the columns are reported, and the null
    destination before them. *)
Lemma converter_reports_first_failed_check_witness :
  @convertOrbSlamPoseToKindr Sample.libraries Sample.narrow_pose None
  = Abort (CheckNotNull_failed "T_kindr") /\
  @convertOrbSlamPoseToKindr Sample.libraries Sample.narrow_pose
    (Some kindr.identity)
  = Abort (CheckEq_failed "T_cv.cols" 3 4).
Proof.
  destruct (@converter_reports_first_failed_check Sample.libraries
              Sample.narrow_pose kindr.identity) as (Hnull & Hcols & _).
  split; [exact Hnull|]. apply Hcols. discriminate.
Defined.

(** X4 on the drifted pose and the same pose with the bottom row
    (5, 6, 7, 8). *)
Lemma converter_reads_top_rows_only_witness :
  @convertOrbSlamPoseToKindr Sample.libraries Sample.drifted_pose
    (Some kindr.identity)
  = @convertOrbSlamPoseToKindr Sample.libraries Sample.drifted_pose_bottom
      (Some Sample.T_C_W).
Proof.
  apply (@converter_reads_top_rows_only Sample.libraries);
    [reflexivity | reflexivity |].
  intros i j Hi Hj.
  assert (Hi' : i = 0 \/ i = 1 \/ i = 2) by lia.
  assert (Hj' : j = 0 \/ j = 1 \/ j = 2 \/ j = 3) by lia.
  destruct Hi' as [->|[->| ->]], Hj' as [->|[->|[->| ->]]]; reflexivity.
Defined.

(** X6 on a snapshot whose second entry is a 3 x 4 matrix. *)
Lemma malformed_pose_kills_the_batch_witness :
  exists e : Fatal,
    e = CheckEq_failed "T_cv.rows" 3 4 /\
    @runPublishUpdatedTrajectory_step Sample.libraries
      Sample.this Sample.bad_engine at_fetch
    = (at_fetch,
       [cout "Updated trajectory available. Publishing.";
        GetUpdatedTrajectory (updated_trajectory Sample.bad_engine)],
       Some e).
Proof.
  assert (Hgood : Forall is_4x4 Sample.good_entries)
    by (repeat constructor).
  assert (Hbad : ~ is_4x4 Sample.bad_entry)
    by (intros [_ Hrows]; discriminate Hrows).
  destruct (@malformed_pose_kills_the_batch Sample.libraries
              Sample.this Sample.bad_engine
              Sample.good_entries Sample.later_entries Sample.bad_entry
              eq_refl Hgood Hbad) as (e & Hconv & _ & Hstep & _).
  exists e. split; [|exact Hstep].
  vm_compute in Hconv. by injection Hconv as <-.
Defined.

(** X7 on the busy schedule, run after [shutdown]. *)
Lemma flag_is_never_cleared_witness :
  mb_shutdown_flag
    (self (@run Sample.libraries Sample.busy_schedule
             (mkProcess (shutdown Sample.this) at_while None)).1) = true.
Proof.
  apply (@flag_is_never_cleared Sample.libraries). reflexivity.
Defined.

(** X8 on the busy schedule, in which nobody calls [shutdown]. *)
Lemma loop_ends_only_by_shutdown_witness :
  mb_shutdown_flag
    (self (@run Sample.libraries Sample.busy_schedule
             (started Sample.this)).1) = false /\
  poller (@run Sample.libraries Sample.busy_schedule
            (started Sample.this)).1 <> returned.
Proof.
  apply (@loop_ends_only_by_shutdown Sample.libraries);
    [reflexivity | discriminate |].
  intros Hin.
  repeat (destruct Hin as [Hin|Hin]; [discriminate Hin|]).
  exact Hin.
Defined.

(** X11 on the busy schedule: two poses, one keyframe status, one
    broadcast. *)
Lemma one_message_per_call_witness :
  let r := @run Sample.libraries Sample.busy_schedule (started Sample.this) in
  aborted r.1 = None /\
  count is_pose_publish r.2 = 2%nat /\
  count is_keyframe_status_publish r.2 = 1%nat /\
  count is_broadcast r.2 = 1%nat.
Proof.
  intros r.
  assert (Hend : aborted r.1 = None) by (vm_compute; reflexivity).
  split; [exact Hend|].
  exact (@one_message_per_call Sample.libraries Sample.busy_schedule
           (started Sample.this) Hend).
Defined.

(** X13 on the sample parameter server: it sets the parent frame and
    leaves the three other optional parameters to their defaults. *)
Lemma constructor_optional_parameters_witness :
  @OrbSlam2Interface_new Sample.libraries Sample.nh_private
  = Ok (Sample.this,
        [advertise "transform_cam" 1; advertise "trajectory_cam" 1;
         advertise "keyframe_status" 1;
         createTimer (ros.mkDuration 0 100000000)]) /\
  use_viewer_ Sample.this = false /\
  verbose_ Sample.this = false /\
  frame_id_ Sample.this = "odom" /\
  child_frame_id_ Sample.this = "cam" /\
  mb_shutdown_flag Sample.this = false.
Proof.
  assert (Hnew : @OrbSlam2Interface_new Sample.libraries Sample.nh_private
                 = Ok (Sample.this,
                       [advertise "transform_cam" 1; advertise "trajectory_cam" 1;
                        advertise "keyframe_status" 1;
                        createTimer (ros.mkDuration 0 100000000)]))
    by (vm_compute; reflexivity).
  split; [exact Hnew|].
  exact (@constructor_optional_parameters Sample.libraries
           Sample.nh_private Sample.this _ Hnew).
Defined.

(** X14 on two headers of the same time, from different frames. *)
Lemma keyframe_status_keeps_stamp_only_witness :
  exists msg : orb_slam_2_ros.KeyframeStatus,
    publishCurrentKeyframeStatus true 7 Sample.header Sample.this
    = (Sample.this, [keyframe_status_pub_publish msg]) /\
    publishCurrentKeyframeStatus true 7
      (std_msgs.mkHeader 3 (ros.mkTime 10 500) "world") Sample.this
    = (Sample.this, [keyframe_status_pub_publish msg]) /\
    orb_slam_2_ros.header msg
    = std_msgs.mkHeader 0 (ros.mkTime 10 500) EmptyString.
Proof.
  destruct (keyframe_status_keeps_stamp_only true 7 Sample.header
              (std_msgs.mkHeader 3 (ros.mkTime 10 500) "world") Sample.this
              eq_refl) as (msg & H1 & H2 & H3 & _).
  exists msg. split; [exact H1|]. split; [exact H2|]. exact H3.
Defined.
